(** * The CV renderer of mattwthomas.com  (src/_latex/cv.11ty.js)

    A shallow embedding of the Eleventy template class [texCV]: the helper
    functions [getYear] and [sortByDate], the section formatters, the
    assembly of the document body, and the hand-over to LuaLaTeX.

    The JavaScript built-ins the file relies on are embedded in module [JS].
    Three of them are left to the host by ECMAScript and are therefore
    fields of the class [JS.Engine]: the parser behind [Date.parse], the
    local time zone behind [getFullYear], and the collation behind
    [localeCompare]. *)

From Stdlib Require Import ZArith String Ascii List Bool Lia DecimalString.
From Stdlib Require Import Permutation Sorted.
Import ListNotations.

#[local] Open Scope string_scope.
#[local] Open Scope Z_scope.

(* ------------------------------------------------------------------------- *)
(** * The host language *)
(* ------------------------------------------------------------------------- *)

Module JS.

(** Numbers as the renderer meets them: time values, years and comparator
    results are integers or NaN. *)
Inductive num : Type :=
| NaN
| Int (z : Z).

(** The values a data file (JSON, YAML, front matter) puts in a field. *)
Inductive val : Type :=
| Undefined
| Null
| Bool (b : bool)
| Num (n : num)
| Str (s : string).

(** [x > y] and [x < y] on numbers: any comparison with NaN is false. *)
Definition gt (x y : num) : bool :=
  match x, y with
  | Int a, Int b => b <? a
  | _, _ => false
  end.

Definition lt (x y : num) : bool :=
  match x, y with
  | Int a, Int b => a <? b
  | _, _ => false
  end.

(** ToBoolean. *)
Definition truthy (v : val) : bool :=
  match v with
  | Undefined | Null => false
  | Bool b => b
  | Num NaN => false
  | Num (Int z) => negb (z =? 0)
  | Str s => negb (s =? "")%string
  end.

(** Number::toString for the integers of this file, and NaN. *)
Definition Number_toString (n : num) : string :=
  match n with
  | NaN => "NaN"
  | Int z => NilZero.string_of_int (Z.to_int z)
  end.

(** ToString, as a template literal applies it to an interpolated value. *)
Definition ToString (v : val) : string :=
  match v with
  | Undefined => "undefined"
  | Null => "null"
  | Bool true => "true"
  | Bool false => "false"
  | Num n => Number_toString n
  | Str s => s
  end.

(** The strict equality [===]. *)
Definition strict_eq (v w : val) : bool :=
  match v, w with
  | Undefined, Undefined => true
  | Null, Null => true
  | Bool a, Bool b => Bool.eqb a b
  | Num (Int a), Num (Int b) => a =? b
  | Str a, Str b => (a =? b)%string
  | _, _ => false
  end.

(** ** Arrays *)

(** [Array.prototype.join] on an array of strings. *)
Definition Array_join (sep : string) (l : list string) : string :=
  String.concat sep l.

(** [Array.prototype.join] on an array of values: undefined and null
    elements contribute the empty string. *)
Definition Array_join_val (sep : string) (l : list val) : string :=
  Array_join sep
    (map (fun v => match v with Undefined | Null => "" | _ => ToString v end) l).

(** [Array.prototype.sort(comparefn)].  ECMAScript asks for a stable sort:
    [x] goes before [y] when [comparefn x y < 0], and elements that compare
    as 0 keep their order.  When [comparefn] is a consistent comparator this
    fixes the result; otherwise the order is left to the engine, and the
    model is the stable insertion sort below.  The function gives the new
    contents of the array; whether that array is the caller's own or a copy
    is decided at the call site. *)
Section Sort.
Context {A : Type} (comparefn : A -> A -> Z).

Fixpoint insert (x : A) (l : list A) : list A :=
  match l with
  | [] => [x]
  | y :: l' => if 0 <? comparefn x y then y :: insert x l' else x :: l
  end.

Definition Array_sort (l : list A) : list A :=
  fold_right insert [] l.
End Sort.

(** The comparator [Array.prototype.sort] uses when it is given none, on
    strings: order by code units. *)
Definition default_compare (x y : string) : Z :=
  match String.compare x y with
  | Lt => -1
  | Eq => 0
  | Gt => 1
  end.

(** ** Strings *)

Fixpoint drop (n : nat) (s : string) : string :=
  match n, s with
  | O, _ => s
  | S n', String _ s' => drop n' s'
  | S _, EmptyString => EmptyString
  end.

(** [String.prototype.replace(searchValue, replaceValue)] with a string
    pattern: only the first occurrence is replaced.  (The replacement
    strings of this file hold no [$] pattern.) *)
Fixpoint String_replace (s searchValue replaceValue : string) : string :=
  if String.prefix searchValue s
  then replaceValue ++ drop (String.length searchValue) s
  else match s with
       | EmptyString => EmptyString
       | String c s' => String c (String_replace s' searchValue replaceValue)
       end.

(** ** Dates *)

Definition msPerDay : Z := 86400000.

Definition Day (t : Z) : Z := t / msPerDay.

Definition DaysInYear (y : Z) : Z :=
  if negb (y mod 4 =? 0) then 365
  else if negb (y mod 100 =? 0) then 366
  else if negb (y mod 400 =? 0) then 365
  else 366.

Definition DayFromYear (y : Z) : Z :=
  365 * (y - 1970) + (y - 1969) / 4 - (y - 1901) / 100 + (y - 1601) / 400.

Definition TimeFromYear (y : Z) : Z := msPerDay * DayFromYear y.

(** YearFromTime: the year [y] with [TimeFromYear y <= t < TimeFromYear (y+1)],
    found from an estimate that is off by one at most. *)
Definition YearFromTime (t : Z) : Z :=
  let d := Day t in
  let y := 1970 + (d * 10000) / 3652425 in
  if d <? DayFromYear y then y - 1
  else if DayFromYear (y + 1) <=? d then y + 1
  else y.

(** TimeClip: a time value is an integer of magnitude 8.64e15 at most. *)
Definition TimeClip (n : num) : num :=
  match n with
  | NaN => NaN
  | Int t => if 8640000000000000 <? Z.abs t then NaN else Int t
  end.

(** What ECMAScript leaves to the host. *)
Class Engine : Type := {
  (** The parser behind [Date.parse] and [new Date(string)].  Only the
      ISO format is fixed by the standard; NaN stands for "not a date". *)
  Date_parse_string : string -> num;
  (** The offset of local time from UTC, in milliseconds, at a UTC time. *)
  LocalTZA : Z -> Z;
  (** [String.prototype.localeCompare]: the host's collation. *)
  localeCompare : string -> string -> Z
}.

Section Date.
Context `{Engine}.

(** [Date.parse(v)]: the argument is converted to a string first. *)
Definition Date_parse (v : val) : num :=
  Date_parse_string (ToString v).

(** [new Date(v)], as the time value of the new object: a string is
  parsed, any other value is converted to a number. *)
Definition new_Date (v : val) : num :=
  match v with
  | Str s => TimeClip (Date_parse_string s)
  | Undefined => NaN
  | Null => Int 0
  | Bool b => Int (if b then 1 else 0)
  | Num n => TimeClip n
  end.

Definition LocalTime (t : Z) : Z := t + LocalTZA t.

(** [Date.prototype.getFullYear]: the year in local time. *)
Definition Date_getFullYear (tv : num) : num :=
  match tv with
  | NaN => NaN
  | Int t => Int (YearFromTime (LocalTime t))
  end.
End Date.

(** ** A host

    The date-only forms of the ISO format ([YYYY], [YYYY-MM], [YYYY-MM-DD])
    denote midnight UTC on every host.  [iso_parse] reads these and answers
    NaN to anything else; the date-time forms, and the further formats that
    engines accept on their own account, are left out. *)

Definition digit (c : ascii) : option Z :=
  let n := Z.of_N (N_of_ascii c) in
  if (48 <=? n) && (n <=? 57) then Some (n - 48) else None.

Definition digits2 (a b : ascii) : option Z :=
  match digit a, digit b with
  | Some x, Some y => Some (10 * x + y)
  | _, _ => None
  end.

Definition digits4 (a b c d : ascii) : option Z :=
  match digits2 a b, digits2 c d with
  | Some x, Some y => Some (100 * x + y)
  | _, _ => None
  end.

(** Days from the start of the year to the start of month [m] (1 to 12). *)
Definition DaysBeforeMonth (y m : Z) : Z :=
  let leap := if DaysInYear y =? 366 then 1 else 0 in
  match m with
  | 1 => 0
  | 2 => 31
  | 3 => 59 + leap
  | 4 => 90 + leap
  | 5 => 120 + leap
  | 6 => 151 + leap
  | 7 => 181 + leap
  | 8 => 212 + leap
  | 9 => 243 + leap
  | 10 => 273 + leap
  | 11 => 304 + leap
  | _ => 334 + leap
  end.

(** MakeDate (MakeDay (y, m - 1, d), 0) for a month [m] from 1 to 12. *)
Definition UTC_midnight (y m d : Z) : Z :=
  msPerDay * (DayFromYear y + DaysBeforeMonth y m + (d - 1)).

Definition DaysInMonth (y m : Z) : Z :=
  if m =? 12 then 31 else DaysBeforeMonth y (m + 1) - DaysBeforeMonth y m.

Definition iso_date (y m d : option Z) : num :=
  match y, m, d with
  | Some y, Some m, Some d =>
      if (1 <=? m) && (m <=? 12) && (1 <=? d) && (d <=? DaysInMonth y m)
      then Int (UTC_midnight y m d)
      else NaN
  | _, _, _ => NaN
  end.

Definition iso_parse (s : string) : num :=
  match s with
  | String y1 (String y2 (String y3 (String y4 rest))) =>
      let y := digits4 y1 y2 y3 y4 in
      match rest with
      | EmptyString => iso_date y (Some 1) (Some 1)
      | String "-" (String m1 (String m2 rest')) =>
          let m := digits2 m1 m2 in
          match rest' with
          | EmptyString => iso_date y m (Some 1)
          | String "-" (String d1 (String d2 EmptyString)) =>
              iso_date y m (digits2 d1 d2)
          | _ => NaN
          end
      | _ => NaN
      end
  | _ => NaN
  end.

Definition lower (c : ascii) : ascii :=
  let n := N_of_ascii c in
  if ((65 <=? n) && (n <=? 90))%N then ascii_of_N (n + 32) else c.

(** ASCII case folding of a string. *)
Fixpoint toLowerCase (s : string) : string :=
  match s with
  | EmptyString => EmptyString
  | String c s' => String (lower c) (toLowerCase s')
  end.

(** A collation in the manner of the usual locale data on plain titles:
    letters compare without regard to case, and case only breaks ties
    (lower case first). *)
Definition letter_collation (a b : string) : Z :=
  match String.compare (toLowerCase a) (toLowerCase b) with
  | Lt => -1
  | Gt => 1
  | Eq => match String.compare b a with
          | Lt => -1
          | Gt => 1
          | Eq => 0
          end
  end.

(** The host whose clock is [offset] milliseconds ahead of UTC all year. *)
Definition fixed_offset_host (offset : Z) : Engine := {|
  Date_parse_string := iso_parse;
  LocalTZA := fun _ => offset;
  localeCompare := letter_collation
|}.

Definition msPerHour : Z := 3600000.

(** A host on UTC, and one five hours behind it (New York in winter). *)
Definition utc_host : Engine := fixed_offset_host 0.
Definition new_york_host : Engine := fixed_offset_host (-5 * msPerHour).

End JS.

Import JS.

(** A line feed. *)
Definition nl : string := "
".

(* ------------------------------------------------------------------------- *)
(** * The data context *)
(* ------------------------------------------------------------------------- *)

(** Fields the code tests for presence, and dates, are values; fields it only
    prints are strings. *)

Module Site.
Record t : Type := {
  title : string;
  bio : string;
  email : string;
  url : string;
  linkedin : string;
  github : string
}.
End Site.

Module Degree.
Record t : Type := { title : string; start : val; end_ : val }.
End Degree.

Module Education.
Record t : Type := { school : string; degrees : list Degree.t }.
End Education.

Module Author.
Record t : Type := { name : string }.
End Author.

Module PaperData.
Record t : Type := {
  title : string;
  authors : list Author.t;
  journal : val;
  year : val;
  published : val;
  accepted : val;
  rnr : val
}.
End PaperData.

Module Paper.
(** [content] is [paper.template.frontMatter.content]. *)
Record t : Type := { url : string; data : PaperData.t; content : string }.
End Paper.

Module Presentation.
Record t : Type := { where_ : string; date : val }.
End Presentation.

Module Award.
Record t : Type := {
  title : val;
  for_ : val;
  from : val;
  date : val;
  start : val;
  end_ : val
}.
End Award.

Module Project.
Record t : Type := { url : string; title : string; github : val }.
End Project.

Module Reference.
Record t : Type := {
  url : string;
  title : string;
  description : string;
  email : string
}.
End Reference.

Module CV.
Record t : Type := {
  education : list Education.t;
  presentations : list Presentation.t;
  refereeing : list string;
  awards : list Award.t;
  researchexp : list Award.t;
  references : list Reference.t
}.
End CV.

(** The object [data] that Eleventy hands to [render]. *)
Record Data : Type := {
  site : Site.t;
  cv : CV.t;
  collections_papers : list Paper.t;
  projects_academic : list Project.t;
  projects_professional : list Project.t;
  projects_personal : list Project.t
}.

(** The two arrays the template sorts where they are. *)
Definition set_refereeing (l : list string) (d : Data) : Data :=
  {| site := site d;
     cv := {| CV.education := CV.education (cv d);
              CV.presentations := CV.presentations (cv d);
              CV.refereeing := l;
              CV.awards := CV.awards (cv d);
              CV.researchexp := CV.researchexp (cv d);
              CV.references := CV.references (cv d) |};
     collections_papers := collections_papers d;
     projects_academic := projects_academic d;
     projects_professional := projects_professional d;
     projects_personal := projects_personal d |}.

Definition set_projects_academic (l : list Project.t) (d : Data) : Data :=
  {| site := site d;
     cv := cv d;
     collections_papers := collections_papers d;
     projects_academic := l;
     projects_professional := projects_professional d;
     projects_personal := projects_personal d |}.

(* ------------------------------------------------------------------------- *)
(** * The filters [where] and [where_not] *)
(* ------------------------------------------------------------------------- *)

(** Modelled from the spec: the filters [this.where] and [this.where_not]
    are registered in the site's Eleventy configuration, which is not under
    src/.  The spec has [where (papers, "accepted")] keep the papers
    "selected by the accepted flag", [where_not (papers, "accepted")] keep
    the others, and [where_not (authors, "name", title)] keep "all authors
    except the profile owner".  So an entry is selected when the value under
    the key is true (two arguments) or is the given value (three). *)
Section Where.
Context {A : Type}.

Definition selects (key : A -> val) (value : option val) (x : A) : bool :=
  match value with
  | None => truthy (key x)
  | Some w => strict_eq (key x) w
  end.

Definition where_ (array : list A) (key : A -> val) (value : option val)
  : list A :=
  filter (selects key value) array.

Definition where_not (array : list A) (key : A -> val) (value : option val)
  : list A :=
  filter (fun x => negb (selects key value x)) array.
End Where.

(* ------------------------------------------------------------------------- *)
(** * Helper functions *)
(* ------------------------------------------------------------------------- *)

Section Helpers.
Context `{Engine}.

(** [getYear]: get year from date string. *)
Definition getYear (dateString : val) : num :=
  Date_getFullYear (new_Date dateString).

(** The comparator of [sortByDate]. *)
Definition byDate {A : Type} (key : A -> val) (a b : A) : Z :=
  if gt (Date_parse (key a)) (Date_parse (key b)) then -1
  else if lt (Date_parse (key a)) (Date_parse (key b)) then 1
  else 0.

(** [sortByDate]: sort in reverse by date key, the most recent first.
    [slice(0)] copies the array, so the result is a new array and the
    argument is left as it was. *)
Definition sortByDate {A : Type} (array : list A) (key : A -> val)
  : list A :=
  Array_sort (byDate key) array.
End Helpers.

(* ------------------------------------------------------------------------- *)
(** * Section formatters *)
(* ------------------------------------------------------------------------- *)

(** [url.replace(/(^\w+:|^)\/\//, "")]: the pattern can only match at the
    start, either a run of word characters, a colon and two slashes, or two
    slashes alone. *)
Definition is_word (c : ascii) : bool :=
  let n := N_of_ascii c in
  (((48 <=? n) && (n <=? 57)) || ((65 <=? n) && (n <=? 90))
   || ((97 <=? n) && (n <=? 122)) || (n =? 95))%N.

Fixpoint skip_word (s : string) : string :=
  match s with
  | EmptyString => EmptyString
  | String c s' => if is_word c then skip_word s' else s
  end.

Definition strip_protocol (s : string) : string :=
  let rest := skip_word s in
  if negb (String.length rest =? String.length s)%nat
     && String.prefix "://" rest
  then drop 3 rest
  else if String.prefix "//" s then drop 2 s
  else s.

Section Formatters.
Context `{Engine}.
Variable data : Data.

(** The address line with social links and email. *)
Definition texAddressLine : string :=
  "\href{mailto:" ++ Site.email (site data) ++ "}{" ++
  Site.email (site data) ++ "}" ++ nl ++
  "    {\hspace{0.1em}\textbullet\hspace{0.1em}}" ++ nl ++ "    \href{" ++
  Site.url (site data) ++ "}{" ++ strip_protocol (Site.url (site data)) ++
  "} " ++ nl ++ "    {\hspace{0.1em}\textbullet\hspace{0.1em}}" ++ nl ++
  "    \href{https://linkedin.com/in/" ++ Site.linkedin (site data) ++
  "}{\faLinkedin/" ++ Site.linkedin (site data) ++ "} " ++ nl ++
  "    {\hspace{0.1em}\textbullet\hspace{0.1em}}" ++ nl ++
  "    \href{https://github.com/" ++ Site.github (site data) ++
  "}{\faGithub/" ++ Site.github (site data) ++ "}".

(** Education. *)
Definition texDegree (degree : Degree.t) : string :=
  "\cvsubsubsection{" ++ Degree.title degree ++ "} \dateright{" ++
  Number_toString (getYear (Degree.start degree)) ++ "--" ++
  Number_toString (getYear (Degree.end_ degree)) ++ "}".

Definition texEducation (education : list Education.t) : string :=
  Array_join (nl ++ nl)
    (map (fun edu =>
            let degrees :=
              Array_join (nl ++ nl) (map texDegree (Education.degrees edu)) in
            "\cvsubsection{" ++ Education.school edu ++ "}" ++ nl ++ nl ++
            degrees)
         education).

(** Papers. *)
Definition withString (paper : Paper.t) : string :=
  if (1 <? length (PaperData.authors (Paper.data paper)))%nat
  then " (with " ++
       Array_join ", "
         (map Author.name
            (where_not (PaperData.authors (Paper.data paper))
               (fun x => Str (Author.name x))
               (Some (Str (Site.title (site data)))))) ++
       ")"
  else "".

Definition journalString (paper : Paper.t) : string :=
  let d := Paper.data paper in
  if truthy (PaperData.journal d) && truthy (PaperData.published d)
  then nl ++ nl ++ "\cvsubsubsection{" ++ ToString (PaperData.journal d) ++
       " " ++ ToString (PaperData.year d) ++ "}"
  else if truthy (PaperData.journal d) && truthy (PaperData.accepted d)
  then nl ++ nl ++ "\cvsubsubsection{Accepted at " ++
       ToString (PaperData.journal d) ++ "}"
  else if truthy (PaperData.journal d) && truthy (PaperData.rnr d)
  then nl ++ nl ++ "\cvsubsubsection{R\&R at " ++
       ToString (PaperData.journal d) ++ "}"
  else "".

Definition texPaper (paper : Paper.t) : string :=
  "\cvsubsection{\href{" ++ Site.url (site data) ++ Paper.url paper ++
  "}{``" ++ PaperData.title (Paper.data paper) ++ "''}}" ++
  withString paper ++ journalString paper ++ nl ++ nl ++
  "\begin{markdown}" ++ Paper.content paper ++ "\end{markdown}" ++ nl ++
  "          ".

Definition texPapers (papers : list Paper.t) : string :=
  Array_join (nl ++ nl) (map texPaper papers).

(** Presentations, sorted by date. *)
Definition texPresentations (presentations : list Presentation.t)
  : string :=
  let sortedPresentations := sortByDate presentations Presentation.date in
  Array_join (nl ++ nl)
    (map (fun pres =>
            Presentation.where_ pres ++ " \dateright{" ++
            Number_toString (getYear (Presentation.date pres)) ++ "}")
         sortedPresentations).

(** Awards, sorted by date; also used for research positions. *)
Definition awardDateString (award : Award.t) : string :=
  if truthy (Award.date award)
  then " \dateright{" ++ Number_toString (getYear (Award.date award)) ++ "}"
  else if truthy (Award.start award) && truthy (Award.end_ award)
  then " \dateright{" ++ Number_toString (getYear (Award.start award)) ++
       "--" ++ Number_toString (getYear (Award.end_ award)) ++ "}"
  else "".

Definition texAward (award : Award.t) : string :=
  Array_join_val ", "
    (filter truthy [Award.title award; Award.for_ award; Award.from award])
  ++ awardDateString award.

Definition texAwards (awards : list Award.t) : string :=
  let sortedAwards := sortByDate awards Award.date in
  Array_join (nl ++ nl) (map texAward sortedAwards).

(** A simple list (software). *)
Definition texProject (project : Project.t) : string :=
  "\cvsubsubsection{\href{" ++ Project.url project ++ "}{" ++
  Project.title project ++ "}}" ++
  (if truthy (Project.github project)
   then "\dateright{\href{" ++ ToString (Project.github project) ++
        "}{\faGithub\ Source}}"
   else "").

Definition texList (projects : list Project.t) : string :=
  Array_join (nl ++ nl) (map texProject projects).

(** References and advisors, with emails. *)
Definition texReference (reference : Reference.t) : string :=
  "\cvsubsection{\href{" ++ Reference.url reference ++ "}{" ++
  Reference.title reference ++ "}}" ++ nl ++ "          " ++ nl ++
  "          \cvsubsubsection{" ++ Reference.description reference ++
  "}" ++ nl ++ "          " ++ nl ++ "          \href{mailto:" ++
  String_replace (Reference.email reference) ".." "@" ++ "}{" ++
  String_replace (Reference.email reference) ".." "@" ++ "}".

Definition texReferences (references : list Reference.t) : string :=
  Array_join (nl ++ nl) (map texReference references).
End Formatters.

(* ------------------------------------------------------------------------- *)
(** * Effects *)
(* ------------------------------------------------------------------------- *)

(** [render] acts on two things: the data context, which it receives by
    reference, and the outside world (files, the LuaLaTeX process, the
    console), of which the calls are recorded in order.  A computation can
    also end by throwing. *)

Inductive completion (A : Type) : Type :=
| Normal (a : A)
| Throw (e : string).
Arguments Normal {A} a.
Arguments Throw {A} e.

(** The calls to the outside.  [OnClose] is the registration of
    [close_listener] below on the LuaLaTeX process. *)
Inductive event : Type :=
| ReadFile (path : string)
| ExistsSync (path : string)
| MkdirSync (path : string)
| Spawn (command : string) (args : list string) (cwd : string)
| StdinWrite (chunk : string)
| StdinEnd
| OnClose
| ConsoleLog (line : string)
| Rename (oldPath newPath : string).

Record World : Type := {
  context : Data;
  events : list event
}.

(** What the surroundings answer. *)
Record Env : Type := {
  dirname : string;
  path_resolve : string -> string;
  file : string -> completion string;
  tmp_exists : bool;
  rename_error : option string
}.

Definition Eff (A : Type) : Type := World -> completion A * World.

Definition ret {A} (a : A) : Eff A := fun w => (Normal a, w).

Definition bind {A B} (c : Eff A) (k : A -> Eff B) : Eff B :=
  fun w =>
    match c w with
    | (Normal a, w') => k a w'
    | (Throw e, w') => (Throw e, w')
    end.

Declare Scope eff_scope.
Delimit Scope eff_scope with eff.
Notation "x <- c ;; k" := (bind c (fun x => k))
  (at level 61, c at next level, right associativity) : eff_scope.
Notation "c ;; k" := (bind c (fun _ => k))
  (at level 61, right associativity) : eff_scope.
#[local] Open Scope eff_scope.

Definition throw {A} (e : string) : Eff A := fun w => (Throw e, w).

Definition get : Eff Data := fun w => (Normal (context w), w).

Definition modify (f : Data -> Data) : Eff unit :=
  fun w => (Normal tt, {| context := f (context w); events := events w |}).

Definition emit (e : event) : Eff unit :=
  fun w =>
    (Normal tt, {| context := context w; events := (events w ++ [e])%list |}).

(** [data.cv.refereeing.sort()]: the array of the context is sorted where it
    is, and returned. *)
Definition sort_refereeing : Eff (list string) :=
  d <- get ;;
  let sorted := Array_sort default_compare (CV.refereeing (cv d)) in
  modify (set_refereeing sorted) ;;
  ret sorted.

(** [data["projects-academic"].sort(comparefn)]: likewise. *)
Definition sort_projects_academic (comparefn : Project.t -> Project.t -> Z)
  : Eff (list Project.t) :=
  d <- get ;;
  let sorted := Array_sort comparefn (projects_academic d) in
  modify (set_projects_academic sorted) ;;
  ret sorted.

(** [fs.promises.readFile]: the read is started, and its outcome is there
    for a later [await]. *)
Definition readFile (env : Env) (path : string) : Eff (completion string) :=
  emit (ReadFile path) ;;
  ret (file env path).

Definition await {A} (promise : completion A) : Eff A :=
  match promise with
  | Normal a => ret a
  | Throw e => throw e
  end.

Definition existsSync (env : Env) (path : string) : Eff bool :=
  emit (ExistsSync path) ;;
  ret (tmp_exists env).

(** [fs.rename (oldPath, newPath, callback)]. *)
Definition fs_rename (env : Env) (oldPath newPath : string)
    (callback : option string -> Eff unit) : Eff unit :=
  emit (Rename oldPath newPath) ;;
  callback (rename_error env).

(* ------------------------------------------------------------------------- *)
(** * The document body and [render] *)
(* ------------------------------------------------------------------------- *)

Section Render.
Context `{Engine}.

Definition accepted (paper : Paper.t) : val :=
  PaperData.accepted (Paper.data paper).

Definition byTitle (a b : Project.t) : Z :=
  localeCompare (Project.title a) (Project.title b).

(** The arrays behind the two paper headings and the two software
    headings. *)
Definition publications (data : Data) : list Paper.t :=
  where_ (collections_papers data) accepted None.

Definition working_papers (data : Data) : list Paper.t :=
  where_not (collections_papers data) accepted None.

Definition other_projects (data : Data) : list Project.t :=
  Array_sort byTitle
    (projects_professional data ++ projects_personal data)%list.

Definition texBody : Eff string :=
  data <- get ;;
  let S_education := texEducation (CV.education (cv data)) in
  let S_publications := texPapers data (publications data) in
  let S_working := texPapers data (working_papers data) in
  let S_presentations := texPresentations (CV.presentations (cv data)) in
  refereeing <- sort_refereeing ;;
  let S_refereeing := Array_join ", " refereeing in
  data <- get ;;
  let S_awards := texAwards (CV.awards (cv data)) in
  let S_researchexp := texAwards (CV.researchexp (cv data)) in
  academic <- sort_projects_academic byTitle ;;
  let S_academic := texList academic in
  data <- get ;;
  let S_other := texList (other_projects data) in
  ret ("%%% Make a header for CV with personal data" ++ nl ++
     "\begin{center}" ++ nl ++ "  \headernamestyle{" ++ nl ++ "    " ++
     Site.title (site data) ++ nl ++ "  }" ++ nl ++ "  \\" ++ nl ++
     "  \vspace{0.6mm}" ++ nl ++ "  \headerpositionstyle{" ++ nl ++ "    " ++
     Site.bio (site data) ++ nl ++ "  }" ++ nl ++ "  \\" ++ nl ++
     "  \vspace{0.4mm}" ++ nl ++ "  \headeraddressstyle{" ++ nl ++ "    " ++
     texAddressLine data ++ nl ++ "  }" ++ nl ++ "  \\" ++ nl ++
     "  \vspace{-1mm}" ++ nl ++ "\end{center}" ++ nl ++ nl ++
     "%%% Education" ++ nl ++ "\cvsection{Education}" ++ nl ++ nl ++
     S_education ++ nl ++ nl ++ "%%% Publications" ++ nl ++
     "\cvsection{Publications}" ++ nl ++ nl ++ S_publications ++ nl ++ nl ++
     "%%% Working papers" ++ nl ++ "\cvsection{Working Papers}" ++ nl ++ nl ++
     S_working ++ nl ++ nl ++ "%%% Presentations" ++ nl ++
     "\cvsection{Presentations}\vspace{1.618ex}" ++ nl ++ nl ++
     S_presentations ++ nl ++ nl ++ "%%% Refereeing" ++ nl ++
     "\cvsection{Refereeing}\vspace{1.618ex}" ++ nl ++ nl ++ S_refereeing ++
     nl ++ nl ++ "%%% Fellowships \& Awards" ++ nl ++
     "\cvsection{Fellowships \& Awards}\vspace{1.618ex}" ++ nl ++ nl ++
     S_awards ++ nl ++ nl ++ "%%% RA Experience" ++ nl ++
     "\cvsection{Research Experience}\vspace{1.618ex}" ++ nl ++ nl ++
     S_researchexp ++ nl ++ nl ++ "%%% Software" ++ nl ++
     "\cvsection{Software}" ++ nl ++ nl ++
     "\cvsubsection{Research Software Packages}" ++ nl ++ nl ++ S_academic ++
     nl ++ nl ++ "\cvsubsection{Other Software \& Projects}" ++ nl ++ nl ++
     S_other ++ nl ++ nl ++ "%%% References" ++ nl ++
     "\cvsection{References}" ++ nl ++
  texReferences (CV.references (cv data)) ++ nl).

(** The listener for the [close] event of the LuaLaTeX process; [code] is
    the exit code, or null when a signal ended the process. *)
Definition close_listener (env : Env) (code : val) : Eff unit :=
  if negb (strict_eq code (Num (Int 0)))
  then emit (ConsoleLog
               ("LuaLaTeX process exited with code " ++ ToString code ++ "."))
  else fs_rename env "./tmp/cv.pdf" "./dist/cv.pdf"
         (fun err =>
            match err with
            | Some e => throw e
            | None =>
                emit (ConsoleLog
                        ("CV moved to dist folder (LuaLaTeX exited with " ++
                         ToString code ++ ")."))
            end).

Definition render (env : Env) : Eff val :=
  texPreamble <- readFile env (dirname env ++ "/_preamble.tex") ;;
  texPostamble <- readFile env (dirname env ++ "/_postamble.tex") ;;
  texBody <- texBody ;;
  tmp <- existsSync env "./tmp" ;;
  (if negb tmp then emit (MkdirSync "./tmp") else ret tt) ;;
  emit (Spawn (path_resolve env "./tmp/vtex/bin/x86_64-linux/lualatex")
              ["--jobname=cv"] "./tmp") ;;
  preamble <- await texPreamble ;;
  postamble <- await texPostamble ;;
  emit (StdinWrite (preamble ++ nl ++ texBody ++ nl ++ postamble)) ;;
  emit StdinEnd ;;
  emit OnClose ;;
  ret Undefined.
End Render.

(* ------------------------------------------------------------------------- *)
(** * Vocabulary of the properties *)
(* ------------------------------------------------------------------------- *)

(** [x] may stand before [y]: the comparator does not ask for a swap. *)
Definition in_order {A : Type} (cmp : A -> A -> Z) (x y : A) : Prop :=
  cmp x y <= 0.

Section DateOrder.
Context `{Engine} {A : Type} (key : A -> val).

(** The parsed value of the selected date field. *)
Definition parsed (a : A) : num := Date_parse (key a).

Definition parses (a : A) : Prop := parsed a <> NaN.

(** [a] is not earlier than [b], in the sense of [<] on numbers. *)
Definition not_earlier (a b : A) : Prop := lt (parsed a) (parsed b) = false.

(** Both dates parse and that of [a] is the same or the later one. *)
Definition same_or_later (a b : A) : Prop :=
  match parsed a, parsed b with
  | Int ta, Int tb => tb <= ta
  | _, _ => False
  end.

(** The entry's date parses to the time [t]. *)
Definition on_date (t : Z) (a : A) : bool :=
  match parsed a with
  | Int u => u =? t
  | NaN => false
  end.
End DateOrder.




Definition occurs (pattern s : string) : Prop :=
  exists before after, s = before ++ pattern ++ after.





Definition start (data : Data) : World :=
  {| context := data; events := [] |}.

(** [x] stands somewhere before [y] in [l]. *)
Definition precedes {A : Type} (x y : A) (l : list A) : Prop :=
  exists l1 l2 l3, l = (l1 ++ x :: l2 ++ y :: l3)%list.

(** C2 as the spec has it: the output is a permutation of the input, ordered
    by non-increasing parsed date (no entry stands before one with a later
    date), and any two entries for which the comparator returns 0, dates
    equal or one of them unparsable, stand as they stood. *)
Definition sorted_keeping_ties `{Engine} {A : Type} (key : A -> val)
    (input output : list A) : Prop :=
  Permutation output input /\
  StronglySorted (not_earlier key) output /\
  (forall x y, byDate key x y = 0 ->
               precedes x y input -> precedes x y output).

(* ------------------------------------------------------------------------- *)
(** * Sample data *)
(* ------------------------------------------------------------------------- *)

Module Sample.

Definition owner : Author.t := {| Author.name := "Ada Owner" |}.
Definition coauthor : Author.t := {| Author.name := "Carl Coauthor" |}.

Definition profile : Site.t := {|
  Site.title := "Ada Owner";
  Site.bio := "Economist";
  Site.email := "ada@example.org";
  Site.url := "https://example.org";
  Site.linkedin := "ada";
  Site.github := "ada"
|}.

Definition paper (title : string) (authors : list Author.t) (accepted : val)
  : Paper.t := {|
  Paper.url := "/papers/" ++ title;
  Paper.data := {|
    PaperData.title := title;
    PaperData.authors := authors;
    PaperData.journal := Undefined;
    PaperData.year := Undefined;
    PaperData.published := Undefined;
    PaperData.accepted := accepted;
    PaperData.rnr := Undefined
  |};
  Paper.content := "Abstract."
|}.

Definition solo : Paper.t := paper "Solo" [owner] (Bool true).
Definition joint : Paper.t := paper "Joint" [owner; coauthor] Undefined.

Definition talk (place : string) (date : val) : Presentation.t :=
  {| Presentation.where_ := place; Presentation.date := date |}.

(** Three talks, the second without a date that parses. *)
Definition talks : list Presentation.t :=
  [ talk "Ithaca" (Str "2019-01-01");
    talk "Lisbon" (Str "to be announced");
    talk "Kyoto" (Str "2021-01-01") ].

Definition dated_talks : list Presentation.t :=
  [ talk "Ithaca" (Str "2019-01-01");
    talk "Kyoto" (Str "2021-01-01");
    talk "Turin" (Str "2019-01-01") ].

(** An award with a title and a single date. *)
Definition prize : Award.t := {|
  Award.title := Str "Prize";
  Award.for_ := Undefined;
  Award.from := Undefined;
  Award.date := Str "2020-01-01";
  Award.start := Undefined;
  Award.end_ := Undefined
|}.

Definition degree : Degree.t := {|
  Degree.title := "PhD";
  Degree.start := Str "n/a";
  Degree.end_ := Undefined
|}.

Definition school : Education.t :=
  {| Education.school := "University"; Education.degrees := [degree] |}.

Definition project (title : string) : Project.t := {|
  Project.url := "https://example.org/" ++ title;
  Project.title := title;
  Project.github := Undefined
|}.

Definition referee : Reference.t := {|
  Reference.url := "https://example.org/jane";
  Reference.title := "Jane Doe";
  Reference.description := "Professor";
  Reference.email := "jane..doe.com"
|}.

Definition data : Data := {|
  site := profile;
  cv := {|
    CV.education := [school];
    CV.presentations := talks;
    CV.refereeing := ["Games and Economic Behavior"; "Econometrica"];
    CV.awards := [prize];
    CV.researchexp := [];
    CV.references := [referee]
  |};
  collections_papers := [joint; solo];
  projects_academic := [project "zeta"; project "Alpha"];
  projects_professional := [project "beta"];
  projects_personal := [project "Atlas"]
|}.

Definition env : Env := {|
  dirname := "/site/src/_latex";
  path_resolve := fun p => "/site" ++ drop 1 p;
  file := fun _ => Normal "% tex";
  tmp_exists := false;
  rename_error := None
|}.

End Sample.

(* ------------------------------------------------------------------------- *)
(** * Further vocabulary and cases *)
(* ------------------------------------------------------------------------- *)

(** The host reads [s] as the date-only form of a day of the year [y], and
    local time on that day's UTC midnight is still in the year: the clock is
    less than a day off, and not behind UTC on the first of January. *)
Definition date_in_year `{Engine} (s : string) (y : Z) : Prop :=
  exists m d,
    Date_parse_string s = Int (UTC_midnight y m d) /\
    0 <= y <= 9999 /\ 1 <= m <= 12 /\ 1 <= d <= DaysInMonth y m /\
    - msPerDay <= LocalTZA (UTC_midnight y m d) < msPerDay /\
    (LocalTZA (UTC_midnight y m d) < 0 -> ~ (m = 1 /\ d = 1)).

(** A run of word characters, as [\w+] matches it. *)
Fixpoint all_word (s : string) : bool :=
  match s with
  | EmptyString => true
  | String c s' => is_word c && all_word s'
  end.

(** The calls [render] has made when it comes to await the two fragments. *)
Definition render_prelude (env : Env) : list event :=
  [ ReadFile (dirname env ++ "/_preamble.tex");
    ReadFile (dirname env ++ "/_postamble.tex");
    ExistsSync "./tmp" ] ++
  (if tmp_exists env then [] else [MkdirSync "./tmp"]) ++
  [ Spawn (path_resolve env "./tmp/vtex/bin/x86_64-linux/lualatex")
          ["--jobname=cv"] "./tmp" ].

Module Cases.

(** Two research positions: a start and an end, and no date. *)
Definition position (title from to : string) : Award.t := {|
  Award.title := Str title;
  Award.for_ := Undefined;
  Award.from := Undefined;
  Award.date := Undefined;
  Award.start := Str from;
  Award.end_ := Str to
|}.

Definition positions : list Award.t :=
  [ position "Assistant" "2016-09-01" "2017-06-01";
    position "Fellow" "2019-09-01" "2020-06-01" ].

(** An award whose date is there and is not one. *)
Definition undated_prize : Award.t := {|
  Award.title := Str "Prize";
  Award.for_ := Undefined;
  Award.from := Undefined;
  Award.date := Str "n/a";
  Award.start := Str "2019-09-01";
  Award.end_ := Str "2020-06-01"
|}.

Definition published_paper : Paper.t := {|
  Paper.url := "/papers/auctions";
  Paper.data := {|
    PaperData.title := "Auctions";
    PaperData.authors := [Sample.owner];
    PaperData.journal := Str "Journal of Economic Theory";
    PaperData.year := Num (Int 2021);
    PaperData.published := Bool true;
    PaperData.accepted := Bool true;
    PaperData.rnr := Undefined
  |};
  Paper.content := "Abstract."
|}.

(** Surroundings in which the preamble cannot be read. *)
Definition no_preamble : Env := {|
  dirname := "/site/src/_latex";
  path_resolve := fun p => "/site" ++ drop 1 p;
  file := fun path =>
    if (path =? "/site/src/_latex/_preamble.tex")%string
    then Throw "ENOENT" else Normal "% tex";
  tmp_exists := true;
  rename_error := Some "EXDEV"
|}.

End Cases.

(* ------------------------------------------------------------------------- *)
(** * Facts about [Array_sort] *)
(* ------------------------------------------------------------------------- *)

Section SortFacts.
Context {A : Type} (cmp : A -> A -> Z).

#[local] Abbreviation in_order := (in_order cmp).

Lemma insert_perm (x : A) (l : list A) :
  Permutation (insert cmp x l) (x :: l).
Proof.
  induction l as [|y l IH]; simpl.
  - apply Permutation_refl.
  - destruct (0 <? cmp x y).
    + apply Permutation_trans with (y :: x :: l).
      * now apply perm_skip.
      * apply perm_swap.
    + apply Permutation_refl.
Qed.

Lemma Array_sort_perm (l : list A) : Permutation (Array_sort cmp l) l.
Proof.
  induction l as [|x l IH]; simpl.
  - apply perm_nil.
  - apply Permutation_trans with (x :: Array_sort cmp l).
    + apply insert_perm.
    + now apply perm_skip.
Qed.

Lemma Array_sort_length (l : list A) :
  length (Array_sort cmp l) = length l.
Proof. apply Permutation_length, Array_sort_perm. Qed.

(** An element that satisfies [p] never moves past another one that does,
    provided such elements are in order whichever comes first. *)
Lemma insert_filter (p : A -> bool) (x : A) (l : list A) :
  (forall y, In y l -> p x = true -> p y = true -> cmp x y <= 0) ->
  filter p (insert cmp x l) = filter p (x :: l).
Proof.
  induction l as [|y l IH]; intros Hp; simpl; [reflexivity|].
  destruct (0 <? cmp x y) eqn:E; simpl; [|reflexivity].
  apply Z.ltb_lt in E.
  rewrite IH by (intros z Hz; apply Hp; now right).
  simpl.
  destruct (p x) eqn:Px; [|reflexivity].
  destruct (p y) eqn:Py; [|reflexivity].
  specialize (Hp y (or_introl eq_refl) eq_refl Py). lia.
Qed.

Lemma Array_sort_filter (p : A -> bool) (l : list A) :
  (forall x y, In x l -> In y l -> p x = true -> p y = true ->
               cmp x y <= 0) ->
  filter p (Array_sort cmp l) = filter p l.
Proof.
  induction l as [|x l IH]; intros Hp; simpl; [reflexivity|].
  rewrite insert_filter.
  - simpl. rewrite IH; [reflexivity|].
    intros a b Ha Hb. apply Hp; now right.
  - intros y Hy. apply Hp; [now left|].
    right. eapply Permutation_in; [apply Array_sort_perm | exact Hy].
Qed.

Section Antisymmetric.
(** On the elements at hand, asking for [y] before [x] excludes asking for
    [x] before [y]. *)
Variable P : A -> Prop.
Hypothesis cmp_antisym :
  forall x y, P x -> P y -> 0 < cmp x y -> cmp y x <= 0.

Lemma insert_Sorted (x : A) (l : list A) :
  P x -> Forall P l ->
  Sorted in_order l -> Sorted in_order (insert cmp x l).
Proof.
  induction l as [|y l IH]; intros Px Pl Hs; simpl.
  - repeat constructor.
  - inversion Pl as [|? ? Py Pl']; subst.
    destruct (0 <? cmp x y) eqn:E.
    + apply Z.ltb_lt in E.
      inversion Hs as [|? ? Hs' Hhd]; subst.
      constructor; [now apply IH|].
      destruct l as [|z l]; simpl.
      * constructor. now apply cmp_antisym.
      * destruct (0 <? cmp x z); constructor.
        -- inversion Hhd; assumption.
        -- now apply cmp_antisym.
    + apply Z.ltb_ge in E.
      constructor; [assumption|]. now constructor.
Qed.

Lemma Array_sort_Sorted (l : list A) :
  Forall P l -> Sorted in_order (Array_sort cmp l).
Proof.
  induction l as [|x l IH]; intros Pl; simpl.
  - constructor.
  - inversion Pl; subst. apply insert_Sorted; auto.
    eapply Permutation_Forall;
      [apply Permutation_sym, Array_sort_perm | assumption].
Qed.
End Antisymmetric.

(** Sorting leaves a list in order as it is. *)
Lemma Array_sort_id (l : list A) :
  Sorted in_order l -> Array_sort cmp l = l.
Proof.
  induction l as [|x l IH]; intros Hs; simpl; [reflexivity|].
  inversion Hs as [|? ? Hs' Hhd]; subst.
  rewrite IH by assumption.
  destruct l as [|y l]; simpl; [reflexivity|].
  inversion Hhd as [|? ? Hxy]; subst. unfold in_order in Hxy.
  destruct (0 <? cmp x y) eqn:E; [|reflexivity].
  apply Z.ltb_lt in E. lia.
Qed.

(** On a set of elements where the comparator is a total preorder, the
    result is in order pairwise, not only from each element to the
    next. *)
Section Preorder.
Variable P : A -> Prop.
Hypothesis cmp_total : forall x y, P x -> P y -> 0 < cmp x y -> cmp y x <= 0.
Hypothesis cmp_trans :
  forall x y z, P x -> P y -> P z ->
                cmp x y <= 0 -> cmp y z <= 0 -> cmp x z <= 0.

Lemma insert_StronglySorted (x : A) (l : list A) :
  P x -> Forall P l ->
  StronglySorted in_order l -> StronglySorted in_order (insert cmp x l).
Proof.
  induction l as [|y l IH]; intros Px Pl Hs; simpl.
  - repeat constructor.
  - inversion Pl as [|? ? Py Pl']; subst.
    inversion Hs as [|? ? Hs' Hall]; subst.
    destruct (0 <? cmp x y) eqn:E.
    + apply Z.ltb_lt in E.
      constructor; [now apply IH|].
      eapply Permutation_Forall.
      * apply Permutation_sym, insert_perm.
      * constructor; [|assumption]. now apply cmp_total.
    + apply Z.ltb_ge in E.
      constructor; [assumption|].
      constructor; [assumption|].
      rewrite Forall_forall in *. intros z Hz.
      apply cmp_trans with y; auto.
      now apply Hall.
Qed.

Lemma Array_sort_StronglySorted (l : list A) :
  Forall P l -> StronglySorted in_order (Array_sort cmp l).
Proof.
  induction l as [|x l IH]; intros Pl; simpl.
  - constructor.
  - inversion Pl; subst.
    apply insert_StronglySorted; auto.
    eapply Permutation_Forall;
      [apply Permutation_sym, Array_sort_perm | assumption].
Qed.
End Preorder.
End SortFacts.

(* ------------------------------------------------------------------------- *)
(** * [sortByDate] *)
(* ------------------------------------------------------------------------- *)

Section SortByDate.
Context `{Engine} {A : Type} (key : A -> val).

#[local] Abbreviation parsed := (parsed key).
#[local] Abbreviation parses := (parses key).
#[local] Abbreviation not_earlier := (not_earlier key).
#[local] Abbreviation same_or_later := (same_or_later key).
#[local] Abbreviation on_date := (on_date key).

Lemma byDate_cases (a b : A) :
  (byDate key a b = 1 /\ lt (parsed a) (parsed b) = true) \/
  (byDate key a b = 0 /\ lt (parsed a) (parsed b) = false
                      /\ gt (parsed a) (parsed b) = false) \/
  (byDate key a b = -1 /\ gt (parsed a) (parsed b) = true).
Proof.
  unfold byDate, parsed.
  destruct (Date_parse (key a)) as [|ta], (Date_parse (key b)) as [|tb];
    simpl; auto.
  destruct (tb <? ta) eqn:E1; auto.
  destruct (ta <? tb) eqn:E2; auto.
Qed.

Lemma byDate_in_order (a b : A) :
  in_order (byDate key) a b <-> not_earlier a b.
Proof.
  unfold in_order, not_earlier.
  destruct (byDate_cases a b) as [[E L]|[[E [L _]]|[E G]]]; rewrite E.
  - rewrite L. split; [lia | discriminate].
  - rewrite L. split; [reflexivity | lia].
  - split; [|lia]. intros _. revert G. unfold gt, lt.
    destruct (parsed a), (parsed b); try discriminate.
    intros G. apply Z.ltb_lt in G. apply Z.ltb_ge. lia.
Qed.

Lemma byDate_antisym (a b : A) :
  0 < byDate key a b -> byDate key b a <= 0.
Proof.
  intros Hab.
  destruct (byDate_cases a b) as [[E L]|[[E _]|[E _]]]; try lia.
  destruct (byDate_cases b a) as [[E' L']|[[E' _]|[E' _]]]; try lia.
  revert L L'. unfold lt. destruct (parsed a), (parsed b); try discriminate.
  intros L L'. apply Z.ltb_lt in L, L'. lia.
Qed.

Lemma byDate_trans (a b c : A) :
  parses a -> parses b -> parses c ->
  byDate key a b <= 0 -> byDate key b c <= 0 -> byDate key a c <= 0.
Proof.
  unfold parses. intros Pa Pb Pc Hab Hbc.
  apply byDate_in_order in Hab, Hbc. apply byDate_in_order.
  revert Hab Hbc. unfold not_earlier, lt.
  destruct (parsed a), (parsed b), (parsed c); try congruence.
  intros Hab Hbc. apply Z.ltb_ge in Hab, Hbc. apply Z.ltb_ge. lia.
Qed.

Lemma not_earlier_parsed (a b : A) :
  parses a -> parses b -> not_earlier a b -> same_or_later a b.
Proof.
  unfold parses, not_earlier, same_or_later, lt.
  destruct (parsed a), (parsed b); try congruence.
  intros _ _ L. now apply Z.ltb_ge in L.
Qed.

Lemma sortByDate_perm (l : list A) : Permutation (sortByDate l key) l.
Proof. apply Array_sort_perm. Qed.

(** Entries of one date keep their order among themselves. *)
Lemma sortByDate_stable (t : Z) (l : list A) :
  filter (on_date t) (sortByDate l key) = filter (on_date t) l.
Proof.
  apply Array_sort_filter. intros x y _ _ Hx Hy.
  apply byDate_in_order. revert Hx Hy. unfold on_date, not_earlier, lt.
  destruct (parsed x), (parsed y); try discriminate.
  intros Hx Hy. apply Z.eqb_eq in Hx, Hy. apply Z.ltb_ge. lia.
Qed.

Lemma sortByDate_sorted (l : list A) :
  Forall parses l -> StronglySorted same_or_later (sortByDate l key).
Proof.
  intros Pl.
  assert (Ps : Forall parses (sortByDate l key)).
  { eapply Permutation_Forall;
      [apply Permutation_sym, sortByDate_perm | exact Pl]. }
  assert (Hs : StronglySorted (in_order (byDate key)) (sortByDate l key)).
  { apply Array_sort_StronglySorted with (P := parses); auto.
    - intros x y _ _. apply byDate_antisym.
    - apply byDate_trans. }
  clear Pl. induction Hs as [|a r Hs IH Hall]; [constructor|].
  inversion Ps as [|? ? Pa Pr]; subst.
  constructor; [now apply IH|].
  rewrite Forall_forall in *. intros b Hb.
  apply not_earlier_parsed; auto. apply byDate_in_order. now apply Hall.
Qed.

Lemma sortByDate_unparsable (l : list A) :
  Forall (fun a => parsed a = NaN) l -> sortByDate l key = l.
Proof.
  intros Hl. apply Array_sort_id.
  induction Hl as [|a r Ha Hr IH]; constructor; [assumption|].
  destruct r as [|b r]; constructor.
  apply byDate_in_order. unfold not_earlier. now rewrite Ha.
Qed.
(** With dates that all parse there is only one way to sort stably, so
    every engine returns what the model returns. *)
Lemma sorted_stable_unique (r r' : list A) :
  Forall parses r -> Forall parses r' ->
  StronglySorted same_or_later r -> StronglySorted same_or_later r' ->
  (forall t, filter (on_date t) r = filter (on_date t) r') ->
  r = r'.
Proof.
  assert (Hon : forall a, parses a -> exists t, parsed a = Int t).
  { intros a Pa. unfold parses in Pa.
    destruct (parsed a) as [|t]; [congruence | now exists t]. }
  assert (Hself : forall a t, parsed a = Int t -> on_date t a = true).
  { intros a t E. unfold on_date. rewrite E. apply Z.eqb_refl. }
  assert (Hempty : forall y l, parses y ->
            ~ (forall t, [] = filter (on_date t) (y :: l))).
  { intros y l Py Hf. destruct (Hon y Py) as [t E].
    specialize (Hf t). simpl in Hf. rewrite (Hself y t E) in Hf.
    discriminate. }
  assert (Hhead : forall x l y l', parses x -> parses y ->
            StronglySorted same_or_later (y :: l') ->
            (forall t, filter (on_date t) (x :: l)
                       = filter (on_date t) (y :: l')) ->
            forall tx ty, parsed x = Int tx -> parsed y = Int ty -> tx <= ty).
  { intros x l y l' Px Py Hs Hf tx ty Ex Ey.
    assert (Hin : In x (y :: l')).
    { eapply (proj1 (filter_In (on_date tx) x (y :: l'))).
      rewrite <- Hf. simpl. rewrite (Hself x tx Ex). now left. }
    destruct Hin as [<-|Hin]; [rewrite Ex in Ey; injection Ey; lia|].
    inversion Hs as [|? ? _ Hall]; subst.
    rewrite Forall_forall in Hall. specialize (Hall x Hin).
    unfold same_or_later in Hall. now rewrite Ex, Ey in Hall. }
  revert r'. induction r as [|x r IH]; intros [|y r'] Pr Pr' Sr Sr' Hf.
  - reflexivity.
  - inversion Pr'; subst. now destruct (Hempty y r').
  - inversion Pr; subst. destruct (Hempty x r); auto.
  - inversion Pr as [|? ? Px Pr0]; subst.
    inversion Pr' as [|? ? Py Pr0']; subst.
    destruct (Hon x Px) as [tx Ex], (Hon y Py) as [ty Ey].
    assert (tx = ty).
    { pose proof (Hhead x r y r' Px Py Sr' Hf tx ty Ex Ey).
      assert (Hf' : forall t, filter (on_date t) (y :: r')
                              = filter (on_date t) (x :: r))
        by (intros t; symmetry; apply Hf).
      pose proof (Hhead y r' x r Py Px Sr Hf' ty tx Ey Ex). lia. }
    subst ty.
    assert (x = y).
    { specialize (Hf tx). simpl in Hf.
      rewrite (Hself x tx Ex), (Hself y tx Ey) in Hf. now injection Hf. }
    subst y. f_equal.
    inversion Sr; subst. inversion Sr'; subst.
    apply IH; auto.
    intros t. specialize (Hf t). simpl in Hf.
    destruct (on_date t x); [now injection Hf | exact Hf].
Qed.

(** X10.  When every date parses, an arrangement of the entries that is
    ordered by non-increasing date and keeps the entries of each date in
    their original order is the one [sortByDate] returns. *)
Lemma sortByDate_unique (l r : list A) :
  Forall parses l ->
  Permutation r l ->
  StronglySorted same_or_later r ->
  (forall t, filter (on_date t) r = filter (on_date t) l) ->
  r = sortByDate l key.
Proof.
  intros Pl Hp Hs Hf. apply sorted_stable_unique; auto.
  - eapply Permutation_Forall; [apply Permutation_sym, Hp | exact Pl].
  - eapply Permutation_Forall;
      [apply Permutation_sym, sortByDate_perm | exact Pl].
  - now apply sortByDate_sorted.
  - intros t. now rewrite Hf, sortByDate_stable.
Qed.
End SortByDate.

(** C2 (amended).  For every array and key, [sortByDate] returns a
    permutation of the entries, of the same length.  When the selected date
    of every entry parses, the result is ordered by non-increasing parsed
    date, and the entries of any one date stand in their original order.
    When no entry's date parses, the result is the array as it was. *)
Theorem sortByDate_correct `{Engine} {A : Type} (key : A -> val)
    (array : list A) :
  Permutation (sortByDate array key) array /\
  length (sortByDate array key) = length array /\
  (Forall (parses key) array ->
     StronglySorted (same_or_later key) (sortByDate array key) /\
     forall t, filter (on_date key t) (sortByDate array key)
               = filter (on_date key t) array) /\
  (Forall (fun a => parsed key a = NaN) array -> sortByDate array key = array).
Proof.
  split; [apply sortByDate_perm|].
  split; [apply Permutation_length, sortByDate_perm|].
  split.
  - intros Pl. split; [now apply sortByDate_sorted|].
    intros t. apply sortByDate_stable.
  - apply sortByDate_unparsable.
Qed.


(* ------------------------------------------------------------------------- *)
(** * Publications and working papers *)
(* ------------------------------------------------------------------------- *)

Lemma filter_split_perm {A : Type} (f : A -> bool) (l : list A) :
  Permutation (filter f l ++ filter (fun x => negb (f x)) l)%list l.
Proof.
  induction l as [|x l IH]; simpl; [constructor|].
  destruct (f x); simpl.
  - now constructor.
  - apply Permutation_sym, Permutation_cons_app, Permutation_sym, IH.
Qed.

Lemma where_In {A : Type} (key : A -> val) (value : option val)
    (array : list A) (x : A) :
  In x (where_ array key value) <-> In x array /\ selects key value x = true.
Proof. unfold where_. apply filter_In. Qed.

Lemma where_not_In {A : Type} (key : A -> val) (value : option val)
    (array : list A) (x : A) :
  In x (where_not array key value)
  <-> In x array /\ selects key value x = false.
Proof.
  unfold where_not. rewrite filter_In, negb_true_iff. reflexivity.
Qed.

(** C1.  The papers under "Publications" and those under "Working Papers"
    partition the collection: together they are the collection, each paper
    as often as it occurs there, and no paper is under both headings. *)
Theorem papers_partition (data : Data) :
  Permutation (publications data ++ working_papers data)%list
              (collections_papers data) /\
  (length (publications data) + length (working_papers data)
   = length (collections_papers data))%nat /\
  (forall paper, In paper (collections_papers data) ->
     In paper (publications data) \/ In paper (working_papers data)) /\
  (forall paper,
     ~ (In paper (publications data) /\ In paper (working_papers data))).
Proof.
  assert (P : Permutation (publications data ++ working_papers data)%list
                          (collections_papers data))
    by apply filter_split_perm.
  split; [exact P|]. split; [|split].
  - rewrite <- length_app. now apply Permutation_length.
  - intros paper Hin. apply in_app_or.
    eapply Permutation_in; [apply Permutation_sym, P | exact Hin].
  - intros paper [Hp Hw].
    apply where_In in Hp. apply where_not_In in Hw.
    destruct Hp as [_ Hp], Hw as [_ Hw]. congruence.
Qed.

(* ------------------------------------------------------------------------- *)
(** * The co-author annotation *)
(* ------------------------------------------------------------------------- *)



(* ------------------------------------------------------------------------- *)
(** * [String_replace] and the reference emails *)
(* ------------------------------------------------------------------------- *)

Lemma prefix_append (p r : string) : String.prefix p (p ++ r) = true.
Proof.
  induction p as [|c p IH]; simpl; [now destruct r|].
  destruct (ascii_dec c c) as [_|N]; [exact IH | now contradiction N].
Qed.

Lemma drop_append (p r : string) : drop (String.length p) (p ++ r) = r.
Proof. induction p as [|c p IH]; simpl; [now destruct r | exact IH]. Qed.

Lemma prefix_split (p s : string) :
  String.prefix p s = true -> s = p ++ drop (String.length p) s.
Proof.
  revert s. induction p as [|c p IH]; intros s Hp; simpl.
  - now destruct s.
  - destruct s as [|d s]; simpl in Hp; [discriminate|].
    destruct (ascii_dec c d) as [->|]; [|discriminate].
    f_equal. now apply IH.
Qed.






(* ------------------------------------------------------------------------- *)
(** * The end of the LuaLaTeX process *)
(* ------------------------------------------------------------------------- *)




(** What the listener does on exit code 0. *)
Lemma close_listener_success (env : Env) (w : World) :
  close_listener env (Num (Int 0)) w
  = match rename_error env with
    | Some e =>
        (Throw e,
         {| context := context w;
            events := events w ++ [Rename "./tmp/cv.pdf" "./dist/cv.pdf"] |})
    | None =>
        (Normal tt,
         {| context := context w;
            events :=
              (events w ++ [Rename "./tmp/cv.pdf" "./dist/cv.pdf"]) ++
              [ConsoleLog "CV moved to dist folder (LuaLaTeX exited with 0)."]
         |})
    end.
Proof.
  unfold close_listener, fs_rename, bind, emit, throw. simpl.
  destruct (rename_error env); reflexivity.
Qed.




(* ------------------------------------------------------------------------- *)
(** * What [render] does to the context *)
(* ------------------------------------------------------------------------- *)

(** After [render], with or without an exception, the context is the one it
    was given with two arrays sorted: the referee list and the academic
    projects.  Nothing else is written. *)
Lemma render_context `{Engine} (env : Env) (data : Data) :
  context (snd (render env (start data)))
  = set_projects_academic
      (Array_sort byTitle (projects_academic data))
      (set_refereeing
         (Array_sort default_compare (CV.refereeing (cv data))) data).
Proof.
  unfold render, readFile, existsSync, texBody, sort_refereeing,
    sort_projects_academic, bind, ret, emit, get, modify, await, throw.
  simpl.
  destruct (tmp_exists env); simpl;
    destruct (file env (dirname env ++ "/_preamble.tex")); simpl;
    destruct (file env (dirname env ++ "/_postamble.tex")); reflexivity.
Qed.

(** X12.  [render] only reads the profile, the education entries, the
    papers, the presentations, the awards, the research positions, the
    professional and personal projects and the references: after it, with
    or without an exception, they are what they were. *)
Lemma render_frame `{Engine} (env : Env) (data : Data) :
  let after := context (snd (render env (start data))) in
  site after = site data /\
  CV.education (cv after) = CV.education (cv data) /\
  collections_papers after = collections_papers data /\
  CV.presentations (cv after) = CV.presentations (cv data) /\
  CV.awards (cv after) = CV.awards (cv data) /\
  CV.researchexp (cv after) = CV.researchexp (cv data) /\
  projects_professional after = projects_professional data /\
  projects_personal after = projects_personal data /\
  CV.references (cv after) = CV.references (cv data).
Proof. cbv zeta. rewrite render_context. repeat split. Qed.

(** The two it sorts where they are. *)
Lemma render_sorts_in_place `{Engine} (env : Env) (data : Data) :
  let after := context (snd (render env (start data))) in
  CV.refereeing (cv after)
  = Array_sort default_compare (CV.refereeing (cv data)) /\
  projects_academic after = Array_sort byTitle (projects_academic data).
Proof. cbv zeta. rewrite render_context. split; reflexivity. Qed.

(** C4.  On the sample context [render] leaves the referee list and the
    academic projects in another order than it found them. *)
Theorem render_reorders_context :
  let after :=
    context (snd (render (H := utc_host) Sample.env (start Sample.data))) in
  CV.refereeing (cv Sample.data)
  = ["Games and Economic Behavior"; "Econometrica"] /\
  CV.refereeing (cv after)
  = ["Econometrica"; "Games and Economic Behavior"] /\
  projects_academic Sample.data
  = [Sample.project "zeta"; Sample.project "Alpha"] /\
  projects_academic after
  = [Sample.project "Alpha"; Sample.project "zeta"].
Proof. cbv zeta. rewrite render_context. repeat split. Qed.

(* ------------------------------------------------------------------------- *)
(** * Years *)
(* ------------------------------------------------------------------------- *)

(** [YearFromTime] meets its definition in ECMAScript. *)
Lemma YearFromTime_bounds (t : Z) :
  TimeFromYear (YearFromTime t) <= t < TimeFromYear (YearFromTime t + 1).
Proof.
  unfold YearFromTime, TimeFromYear, Day, msPerDay.
  set (d := t / 86400000).
  assert (Hd : 86400000 * d <= t < 86400000 * (d + 1)).
  { unfold d. Z.div_mod_to_equations. lia. }
  set (y := 1970 + d * 10000 / 3652425).
  assert (Hy : 3652425 * (y - 1970) <= d * 10000 < 3652425 * (y - 1969)).
  { unfold y. Z.div_mod_to_equations. lia. }
  clearbody d y.
  assert (B : forall z, 3652425 * (z - 1970) - 20000 <= 10000 * DayFromYear z
                        <= 3652425 * (z - 1970) + 20000).
  { intros z. unfold DayFromYear. Z.div_mod_to_equations. lia. }
  pose proof (B y). pose proof (B (y + 1)).
  pose proof (B (y - 1)). pose proof (B (y + 2)).
  cbv zeta.
  destruct (d <? DayFromYear y) eqn:E1.
  - apply Z.ltb_lt in E1. replace (y - 1 + 1) with y by lia. lia.
  - apply Z.ltb_ge in E1.
    destruct (DayFromYear (y + 1) <=? d) eqn:E2.
    + apply Z.leb_le in E2. replace (y + 1 + 1) with (y + 2) by lia. lia.
    + apply Z.leb_gt in E2. lia.
Qed.

(** The year of a time depends on its day only. *)
Lemma YearFromTime_of_day (t d : Z) :
  msPerDay * d <= t < msPerDay * (d + 1) ->
  YearFromTime t = YearFromTime (msPerDay * d).
Proof.
  intros Ht. unfold YearFromTime, Day.
  replace (t / msPerDay) with d.
  - replace (msPerDay * d / msPerDay) with d; [reflexivity|].
    unfold msPerDay. Z.div_mod_to_equations. lia.
  - unfold msPerDay in *. Z.div_mod_to_equations. lia.
Qed.

(** The date-only string "2020-01-01" is midnight UTC.  Its year is 2020
    where the clock is on UTC or ahead of it, and 2019 where the clock is
    behind. *)
Lemma getYear_new_year `{Engine} :
  Date_parse_string "2020-01-01" = Int 1577836800000 ->
  (0 <= LocalTZA 1577836800000 < msPerDay ->
   getYear (Str "2020-01-01") = Int 2020) /\
  (- msPerDay <= LocalTZA 1577836800000 < 0 ->
   getYear (Str "2020-01-01") = Int 2019).
Proof.
  intros Hparse. unfold getYear, new_Date. rewrite Hparse.
  change (TimeClip (Int 1577836800000)) with (Int 1577836800000).
  unfold Date_getFullYear, LocalTime. split; intros Hoff; f_equal.
  - rewrite (YearFromTime_of_day _ 18262); [now vm_compute|].
    unfold msPerDay in *. lia.
  - rewrite (YearFromTime_of_day _ 18261); [now vm_compute|].
    unfold msPerDay in *. lia.
Qed.

(* ------------------------------------------------------------------------- *)
(** * Awards *)
(* ------------------------------------------------------------------------- *)

(** The awards formatter: the descriptive fields that are present, joined
    by ", ", then the date annotation, chosen by what is present. *)
Lemma texAward_format `{Engine} (award : Award.t) :
  texAward award
  = Array_join_val ", "
      (filter truthy [Award.title award; Award.for_ award; Award.from award])
    ++ awardDateString award /\
  (truthy (Award.date award) = true ->
   awardDateString award
   = " \dateright{" ++ Number_toString (getYear (Award.date award)) ++ "}") /\
  (truthy (Award.date award) = false ->
   truthy (Award.start award) = true -> truthy (Award.end_ award) = true ->
   awardDateString award
   = " \dateright{" ++ Number_toString (getYear (Award.start award)) ++
     "--" ++ Number_toString (getYear (Award.end_ award)) ++ "}") /\
  (truthy (Award.date award) = false ->
   truthy (Award.start award) && truthy (Award.end_ award) = false ->
   awardDateString award = "").
Proof.
  split; [reflexivity|]. unfold awardDateString.
  split; [|split].
  - intros ->. reflexivity.
  - intros -> -> ->. reflexivity.
  - intros -> ->. reflexivity.
Qed.

(** X4.  An award with a title and a date only, both non-empty, is printed
    as the title, a space and the year annotation of the date, with no
    separator. *)
Lemma texAward_title_date `{Engine} (title date : string) :
  title <> "" -> date <> "" ->
  texAward {| Award.title := Str title; Award.for_ := Undefined;
              Award.from := Undefined; Award.date := Str date;
              Award.start := Undefined; Award.end_ := Undefined |}
  = title ++ " \dateright{" ++ Number_toString (getYear (Str date)) ++ "}".
Proof.
  intros Ht Hd. unfold texAward, awardDateString. simpl.
  destruct (String.eqb_spec title ""); [contradiction|].
  destruct (String.eqb_spec date ""); [contradiction|].
  simpl. reflexivity.
Qed.

(** C6.  The award with the title "Prize" and the date "2020-01-01" is
    printed with the year 2019 on a host five hours behind UTC, and with
    2020 on a host on UTC. *)
Theorem award_year_is_local :
  texAwards (H := new_york_host) [Sample.prize] = "Prize \dateright{2019}" /\
  texAwards (H := utc_host) [Sample.prize] = "Prize \dateright{2020}".
Proof. split; reflexivity. Qed.

(* ------------------------------------------------------------------------- *)
(** * A date that does not parse, between two that do *)
(* ------------------------------------------------------------------------- *)

Lemma split_unique {A : Type} (x : A) (p q p' q' : list A) :
  NoDup (p ++ x :: q) ->
  (p ++ x :: q = p' ++ x :: q')%list ->
  p = p' /\ q = q'.
Proof.
  revert p'. induction p as [|y p IH]; intros [|y' p'] ND E; simpl in *.
  - injection E as E. now split.
  - injection E as -> ->. apply NoDup_cons_iff in ND.
    destruct ND as [N _]. contradiction N. apply in_elt.
  - injection E as -> <-. apply NoDup_cons_iff in ND.
    destruct ND as [N _]. contradiction N. apply in_elt.
  - injection E as -> E. apply NoDup_cons_iff in ND.
    destruct ND as [_ ND]. destruct (IH p' ND E) as [-> ->]. now split.
Qed.

Lemma StronglySorted_after {A : Type} (R : A -> A -> Prop) (x : A)
    (l1 l2 : list A) :
  StronglySorted R (l1 ++ x :: l2) -> Forall (R x) l2.
Proof.
  induction l1 as [|y l1 IH]; simpl; intros Hs; inversion Hs; subst; auto.
Qed.

(** With an entry that does not parse between an earlier and a later one,
    the array is returned as it is, so the earlier date comes first. *)
Lemma sortByDate_talks :
  sortByDate (H := utc_host) Sample.talks Presentation.date = Sample.talks.
Proof. reflexivity. Qed.

(** C2, counterexample.  For the three sample talks [sortByDate] returns
    the array as it is, which is not ordered by non-increasing date: the
    talk of 2019 stands before the talk of 2021.  No arrangement would meet
    the claim, since keeping the undated talk in place relative to both
    others forces that order. *)
Lemma sortByDate_unparsable_between :
  sortByDate (H := utc_host) Sample.talks Presentation.date = Sample.talks /\
  ~ StronglySorted (not_earlier (H := utc_host) Presentation.date)
      (sortByDate (H := utc_host) Sample.talks Presentation.date) /\
  ~ sorted_keeping_ties (H := utc_host) Presentation.date Sample.talks
      (sortByDate (H := utc_host) Sample.talks Presentation.date) /\
  forall output,
    ~ sorted_keeping_ties (H := utc_host) Presentation.date Sample.talks
        output.
Proof.
  assert (N : ~ StronglySorted (not_earlier (H := utc_host) Presentation.date)
                  (sortByDate (H := utc_host) Sample.talks Presentation.date)).
  { rewrite sortByDate_talks. intros S.
    apply (StronglySorted_after _ _ []) in S.
    inversion S as [|? ? _ S']; subst. inversion S' as [|? ? E _]; subst.
    vm_compute in E. discriminate. }
  split; [reflexivity|]. split; [exact N|].
  split; [intros (_ & S & _); now apply N|].
  intros output (P & S & T).
  pose (a := Sample.talk "Ithaca" (Str "2019-01-01")).
  pose (b := Sample.talk "Lisbon" (Str "to be announced")).
  pose (c := Sample.talk "Kyoto" (Str "2021-01-01")).
  assert (ND : NoDup output).
  { eapply Permutation_NoDup; [apply Permutation_sym, P|].
    repeat constructor; simpl; intuition discriminate. }
  destruct (T a b) as (l1 & l2 & l3 & E1);
    [reflexivity | now exists [], [], [c] |].
  destruct (T b c) as (m1 & m2 & m3 & E2);
    [reflexivity | now exists [a], [], [] |].
  assert (E : ((l1 ++ a :: l2) ++ b :: l3 = m1 ++ b :: m2 ++ c :: m3)%list).
  { rewrite <- app_assoc. simpl. now rewrite <- E1. }
  apply split_unique in E;
    [|rewrite <- app_assoc; simpl; now rewrite <- E1].
  destruct E as [_ E3].
  rewrite E1 in S. apply StronglySorted_after in S.
  rewrite Forall_forall in S.
  assert (Hac : not_earlier (H := utc_host) Presentation.date a c).
  { apply S. apply in_or_app. right. right. rewrite E3. apply in_elt. }
  vm_compute in Hac. discriminate.
Qed.

(* ------------------------------------------------------------------------- *)
(** * The software lists *)
(* ------------------------------------------------------------------------- *)


Lemma letter_collation_antisym (a b : string) :
  0 < letter_collation a b -> letter_collation b a <= 0.
Proof.
  unfold letter_collation.
  rewrite (String.compare_antisym (toLowerCase b) (toLowerCase a)).
  rewrite (String.compare_antisym a b).
  destruct (String.compare (toLowerCase a) (toLowerCase b)); simpl; try lia.
  destruct (String.compare b a); simpl; lia.
Qed.




(* ------------------------------------------------------------------------- *)
(** * Dates that do not parse *)
(* ------------------------------------------------------------------------- *)


(* ------------------------------------------------------------------------- *)
(** * The theorems at the sample data *)
(* ------------------------------------------------------------------------- *)

Lemma papers_partition_sample :
  In Sample.joint (collections_papers Sample.data) /\
  (In Sample.joint (publications Sample.data) \/
   In Sample.joint (working_papers Sample.data)).
Proof.
  assert (I : In Sample.joint (collections_papers Sample.data))
    by (simpl; auto).
  split; [exact I|].
  exact (proj1 (proj2 (proj2 (papers_partition Sample.data))) _ I).
Defined.

Lemma sortByDate_correct_sample :
  Forall (parses (H := utc_host) Presentation.date) Sample.dated_talks /\
  StronglySorted (same_or_later (H := utc_host) Presentation.date)
    (sortByDate (H := utc_host) Sample.dated_talks Presentation.date) /\
  sortByDate (H := utc_host) Sample.dated_talks Presentation.date
  = [ Sample.talk "Kyoto" (Str "2021-01-01");
      Sample.talk "Ithaca" (Str "2019-01-01");
      Sample.talk "Turin" (Str "2019-01-01") ].
Proof.
  assert (F : Forall (parses (H := utc_host) Presentation.date)
                     Sample.dated_talks)
    by (repeat constructor; vm_compute; discriminate).
  split; [exact F|]. split; [|reflexivity].
  exact (proj1 (proj1 (proj2 (proj2
           (sortByDate_correct (H := utc_host) Presentation.date
              Sample.dated_talks))) F)).
Defined.







(* ------------------------------------------------------------------------- *)
(** * The calendar *)
(* ------------------------------------------------------------------------- *)

(** A year is as long as [DaysInYear] says. *)
Lemma DayFromYear_step (y : Z) :
  DayFromYear (y + 1) = DayFromYear y + DaysInYear y.
Proof.
  unfold DayFromYear, DaysInYear.
  assert (H4 : (y + 1 - 1969) / 4 = (y - 1969) / 4 + (if y mod 4 =? 0 then 1 else 0)).
  { destruct (y mod 4 =? 0) eqn:E; [apply Z.eqb_eq in E | apply Z.eqb_neq in E];
      Z.div_mod_to_equations; lia. }
  assert (H100 : (y + 1 - 1901) / 100 = (y - 1901) / 100 + (if y mod 100 =? 0 then 1 else 0)).
  { destruct (y mod 100 =? 0) eqn:E; [apply Z.eqb_eq in E | apply Z.eqb_neq in E];
      Z.div_mod_to_equations; lia. }
  assert (H400 : (y + 1 - 1601) / 400 = (y - 1601) / 400 + (if y mod 400 =? 0 then 1 else 0)).
  { destruct (y mod 400 =? 0) eqn:E; [apply Z.eqb_eq in E | apply Z.eqb_neq in E];
      Z.div_mod_to_equations; lia. }
  assert (I1 : y mod 100 = 0 -> y mod 4 = 0).
  { intros E. Z.div_mod_to_equations. lia. }
  assert (I2 : y mod 400 = 0 -> y mod 100 = 0).
  { intros E. Z.div_mod_to_equations. lia. }
  rewrite H4, H100, H400.
  destruct (y mod 4 =? 0) eqn:E4; destruct (y mod 100 =? 0) eqn:E100;
    destruct (y mod 400 =? 0) eqn:E400; cbn [negb];
    rewrite ?Z.eqb_eq, ?Z.eqb_neq in *; lia.
Qed.

Lemma DayFromYear_estimate (z : Z) :
  3652425 * (z - 1970) - 20000 <= 10000 * DayFromYear z
  <= 3652425 * (z - 1970) + 20000.
Proof. unfold DayFromYear. Z.div_mod_to_equations. lia. Qed.

Lemma DayFromYear_mono (a b : Z) : a <= b -> DayFromYear a <= DayFromYear b.
Proof.
  intros Hab. destruct (Z.eq_dec a b) as [->|N]; [lia|].
  pose proof (DayFromYear_estimate a). pose proof (DayFromYear_estimate b). lia.
Qed.

(** [YearFromTime] is the only year that meets the definition. *)
Lemma YearFromTime_unique (t y : Z) :
  TimeFromYear y <= t < TimeFromYear (y + 1) -> YearFromTime t = y.
Proof.
  intros Hy. pose proof (YearFromTime_bounds t) as HY.
  unfold TimeFromYear, msPerDay in *.
  destruct (Z.lt_trichotomy (YearFromTime t) y) as [L|[E|G]]; [|exact E|].
  - pose proof (DayFromYear_mono (YearFromTime t + 1) y). lia.
  - pose proof (DayFromYear_mono (y + 1) (YearFromTime t)). lia.
Qed.

Lemma DaysBeforeMonth_leap (y m : Z) :
  DaysBeforeMonth y m
  = DaysBeforeMonth (if DaysInYear y =? 366 then 2000 else 2001) m.
Proof.
  unfold DaysBeforeMonth. destruct (DaysInYear y =? 366); reflexivity.
Qed.

(** Evaluating the month tables at given months. *)
Ltac eval_days :=
  repeat match goal with
  | H : context [DaysBeforeMonth ?a ?b] |- _ =>
      let v := eval vm_compute in (DaysBeforeMonth a b) in
      change (DaysBeforeMonth a b) with v in H
  | |- context [DaysBeforeMonth ?a ?b] =>
      let v := eval vm_compute in (DaysBeforeMonth a b) in
      change (DaysBeforeMonth a b) with v
  | H : context [Z.eqb ?a ?b] |- _ =>
      let v := eval vm_compute in (Z.eqb a b) in
      change (Z.eqb a b) with v in H
  end.

Lemma day_within_year (y m d : Z) :
  1 <= m <= 12 -> 1 <= d <= DaysInMonth y m ->
  0 <= DaysBeforeMonth y m + (d - 1) < DaysInYear y /\
  (DaysBeforeMonth y m + (d - 1) = 0 <-> m = 1 /\ d = 1).
Proof.
  intros Hm Hd.
  assert (C : m = 1 \/ m = 2 \/ m = 3 \/ m = 4 \/ m = 5 \/ m = 6 \/ m = 7 \/
              m = 8 \/ m = 9 \/ m = 10 \/ m = 11 \/ m = 12) by lia.
  assert (L : DaysInYear y = 365 \/ DaysInYear y = 366).
  { unfold DaysInYear. repeat destruct (negb _); auto. }
  unfold DaysInMonth in Hd.
  rewrite !(DaysBeforeMonth_leap y) in *.
  destruct L as [L|L]; rewrite L in *;
    decompose [or] C; subst m; eval_days; cbv iota in Hd; lia.
Qed.

Lemma UTC_midnight_clip (y m d : Z) :
  0 <= y <= 9999 -> 1 <= m <= 12 -> 1 <= d <= DaysInMonth y m ->
  TimeClip (Int (UTC_midnight y m d)) = Int (UTC_midnight y m d).
Proof.
  intros Hy Hm Hd. unfold TimeClip.
  destruct (8640000000000000 <? Z.abs (UTC_midnight y m d)) eqn:E;
    [|reflexivity].
  apply Z.ltb_lt in E. exfalso.
  destruct (day_within_year y m d Hm Hd) as [K _].
  assert (DaysInYear y <= 366).
  { unfold DaysInYear. repeat destruct (negb _); lia. }
  pose proof (DayFromYear_estimate y).
  unfold UTC_midnight, msPerDay in E. lia.
Qed.

Lemma year_of_local_time (y k off : Z) :
  0 <= k < DaysInYear y ->
  - msPerDay <= off < msPerDay ->
  (off < 0 -> 0 < k) ->
  YearFromTime (msPerDay * (DayFromYear y + k) + off) = y.
Proof.
  intros Hk Hoff Hneg. apply YearFromTime_unique.
  unfold TimeFromYear. rewrite DayFromYear_step.
  unfold msPerDay in *. lia.
Qed.

Lemma getYear_in_year `{Engine} (s : string) (y : Z) :
  date_in_year s y -> getYear (Str s) = Int y.
Proof.
  intros (m & d & Hp & Hy & Hm & Hd & Hoff & Hneg).
  unfold getYear, new_Date. rewrite Hp, UTC_midnight_clip by assumption.
  unfold Date_getFullYear, LocalTime. f_equal.
  destruct (day_within_year y m d Hm Hd) as [K K0].
  unfold UTC_midnight at 1.
  replace (DayFromYear y + DaysBeforeMonth y m + (d - 1))
    with (DayFromYear y + (DaysBeforeMonth y m + (d - 1))) by lia.
  apply year_of_local_time; auto.
  intros Hlt. specialize (Hneg Hlt).
  destruct (Z.eq_dec (DaysBeforeMonth y m + (d - 1)) 0) as [E|N]; [|lia].
  apply K0 in E. contradiction.
Qed.

Lemma getYear_january_first `{Engine} (s : string) (y : Z) :
  Date_parse_string s = Int (UTC_midnight y 1 1) ->
  1 <= y <= 9999 ->
  - msPerDay <= LocalTZA (UTC_midnight y 1 1) < 0 ->
  getYear (Str s) = Int (y - 1).
Proof.
  intros Hp Hy Hoff.
  assert (Hd : 1 <= 1 <= DaysInMonth y 1).
  { unfold DaysInMonth. rewrite !(DaysBeforeMonth_leap y).
    destruct (DaysInYear y =? 366); vm_compute; split; discriminate. }
  unfold getYear, new_Date. rewrite Hp, UTC_midnight_clip by lia.
  unfold Date_getFullYear, LocalTime. f_equal.
  set (off := LocalTZA (UTC_midnight y 1 1)) in *. clearbody off.
  apply YearFromTime_unique. unfold TimeFromYear, UTC_midnight.
  replace (y - 1 + 1) with y by lia.
  pose proof (DayFromYear_step (y - 1)) as S.
  replace (y - 1 + 1) with y in S by lia.
  assert (365 <= DaysInYear (y - 1)).
  { unfold DaysInYear. repeat destruct (negb _); lia. }
  change (DaysBeforeMonth y 1) with 0.
  unfold msPerDay in *. lia.
Qed.

(** X1.  Where the host reads a string as the date-only form of the day
    [d] of month [m] of year [y], and its clock is less than a day off UTC,
    [getYear] gives [y], except for the first of January on a host behind
    UTC, where it gives [y - 1]. *)
Theorem getYear_date_only `{Engine} (s : string) (y m d : Z) :
  Date_parse_string s = Int (UTC_midnight y m d) ->
  1 <= y <= 9999 -> 1 <= m <= 12 -> 1 <= d <= DaysInMonth y m ->
  - msPerDay <= LocalTZA (UTC_midnight y m d) < msPerDay ->
  getYear (Str s)
  = Int (if (LocalTZA (UTC_midnight y m d) <? 0) && (m =? 1) && (d =? 1)
         then y - 1 else y).
Proof.
  intros Hp Hy Hm Hd Hoff.
  destruct (LocalTZA (UTC_midnight y m d) <? 0) eqn:E0;
    [apply Z.ltb_lt in E0 | apply Z.ltb_ge in E0];
    destruct (m =? 1) eqn:E1; destruct (d =? 1) eqn:E2; cbn [andb];
    rewrite ?Z.eqb_eq, ?Z.eqb_neq in *;
    try (apply getYear_in_year; exists m, d; repeat split; auto; lia).
  subst m d. apply getYear_january_first; auto; lia.
Qed.

(** X2.  A degree whose start and end are date-only strings that local time
    keeps in their years is printed with its title and the range of the two
    years, start first, with two hyphens between. *)
Theorem degree_year_range `{Engine} (title from to : string) (y1 y2 : Z) :
  date_in_year from y1 -> date_in_year to y2 ->
  texDegree {| Degree.title := title; Degree.start := Str from;
               Degree.end_ := Str to |}
  = "\cvsubsubsection{" ++ title ++ "} \dateright{" ++
    Number_toString (Int y1) ++ "--" ++ Number_toString (Int y2) ++ "}".
Proof.
  intros H1 H2. unfold texDegree. cbn [Degree.title Degree.start Degree.end_].
  now rewrite (getYear_in_year _ _ H1), (getYear_in_year _ _ H2).
Qed.

(* ------------------------------------------------------------------------- *)
(** * Awards and research positions *)
(* ------------------------------------------------------------------------- *)

(** X3.  When no entry has a [date] that parses (research positions have a
    start and an end instead), the awards formatter prints the entries in
    the order of the data. *)
Theorem texAwards_undated `{Engine} (awards : list Award.t) :
  Forall (fun award => Date_parse (Award.date award) = NaN) awards ->
  texAwards awards = Array_join (nl ++ nl) (map texAward awards).
Proof.
  intros Hl. unfold texAwards. cbv zeta.
  now rewrite (sortByDate_unparsable Award.date awards Hl).
Qed.

(* ------------------------------------------------------------------------- *)
(** * The referee list *)
(* ------------------------------------------------------------------------- *)

Lemma ascii_compare_trans (a b c : ascii) (r : comparison) :
  Ascii.compare a b = r -> Ascii.compare b c = r -> Ascii.compare a c = r.
Proof.
  unfold Ascii.compare. intros H1 H2. destruct r.
  - apply N.compare_eq_iff in H1, H2. apply N.compare_eq_iff. congruence.
  - rewrite N.compare_lt_iff in *. lia.
  - rewrite N.compare_gt_iff in *. lia.
Qed.

Lemma string_leb_trans (a b c : string) :
  String.leb a b = true -> String.leb b c = true -> String.leb a c = true.
Proof.
  unfold String.leb. revert b c.
  induction a as [|x a IH]; intros [|y b] [|z c]; simpl; try congruence.
  destruct (Ascii.compare x y) eqn:Exy; try discriminate;
    destruct (Ascii.compare y z) eqn:Eyz; try discriminate.
  - rewrite (ascii_compare_trans _ _ _ _ Exy Eyz). apply IH.
  - apply Ascii.compare_eq_iff in Exy. subst. now rewrite Eyz.
  - apply Ascii.compare_eq_iff in Eyz. subst. now rewrite Exy.
  - now rewrite (ascii_compare_trans _ _ _ _ Exy Eyz).
Qed.

Lemma default_compare_leb (a b : string) :
  in_order default_compare a b <-> String.leb a b = true.
Proof.
  unfold in_order, default_compare, String.leb.
  destruct (String.compare a b); split; intros; try reflexivity;
    try lia; discriminate.
Qed.

Lemma default_compare_antisym (a b : string) :
  0 < default_compare a b -> default_compare b a <= 0.
Proof.
  unfold default_compare. rewrite (String.compare_antisym b a).
  destruct (String.compare a b); simpl; lia.
Qed.

(** X11.  Sorting the referee list gives a permutation of it in which no
    name is followed, at any distance, by one that is smaller in the order
    of code units; the sorted list replaces the one in the context, and no
    call to the outside is made. *)
Theorem refereeing_sorted (w : World) :
  exists sorted w',
    sort_refereeing w = (Normal sorted, w') /\
    Permutation sorted (CV.refereeing (cv (context w))) /\
    StronglySorted (fun a b => String.leb a b = true) sorted /\
    CV.refereeing (cv (context w')) = sorted /\
    events w' = events w.
Proof.
  exists (Array_sort default_compare (CV.refereeing (cv (context w)))).
  eexists. split.
  { unfold sort_refereeing, bind, get, modify, ret. simpl. reflexivity. }
  split; [apply Array_sort_perm|]. split; [|split; reflexivity].
  assert (S : StronglySorted (in_order default_compare)
                (Array_sort default_compare (CV.refereeing (cv (context w))))).
  { apply Array_sort_StronglySorted with (P := fun _ => True).
    - intros x y _ _. apply default_compare_antisym.
    - intros x y z _ _ _ Hxy Hyz.
      apply default_compare_leb in Hxy, Hyz. apply default_compare_leb.
      eapply string_leb_trans; eassumption.
    - apply Forall_forall. trivial. }
  induction S as [|a l S IH Hall]; constructor; auto.
  rewrite Forall_forall in *. intros b Hb.
  apply default_compare_leb. now apply Hall.
Qed.

(* ------------------------------------------------------------------------- *)
(** * The run of [render] *)
(* ------------------------------------------------------------------------- *)

Ltac run_render :=
  unfold render, readFile, existsSync, texBody, sort_refereeing,
    sort_projects_academic, bind, ret, emit, get, modify, await, throw,
    render_prelude, start;
  cbn [context events fst snd app negb].


(** X15.  When the preamble, or else the postamble, cannot be read,
    [render] throws that error after LuaLaTeX has been started: nothing is
    written to its input, the input is not ended and no listener is
    registered. *)
Theorem render_unreadable `{Engine} (env : Env) (data : Data) (e : string) :
  file env (dirname env ++ "/_preamble.tex") = Throw e \/
  ((exists preamble,
      file env (dirname env ++ "/_preamble.tex") = Normal preamble) /\
   file env (dirname env ++ "/_postamble.tex") = Throw e) ->
  fst (render env (start data)) = Throw e /\
  events (snd (render env (start data))) = render_prelude env.
Proof.
  intros [Hpre | [[preamble Hpre] Hpost]]; run_render.
  - rewrite Hpre. destruct (tmp_exists env); split; reflexivity.
  - rewrite Hpre, Hpost. destruct (tmp_exists env); split; reflexivity.
Qed.

(** X16.  After exit code 0 the listener asks once for the move of the PDF.
    If the move fails the error is thrown and nothing is logged; if it
    succeeds one line is logged after it.  The context is not touched. *)
Theorem relocation_outcome (env : Env) (w : World) :
  let result := close_listener env (Num (Int 0)) w in
  (forall e, rename_error env = Some e ->
     fst result = Throw e /\
     events (snd result)
     = (events w ++ [Rename "./tmp/cv.pdf" "./dist/cv.pdf"])%list) /\
  (rename_error env = None ->
     fst result = Normal tt /\
     events (snd result)
     = (events w ++
        [ Rename "./tmp/cv.pdf" "./dist/cv.pdf";
          ConsoleLog "CV moved to dist folder (LuaLaTeX exited with 0)." ])%list)
  /\ context (snd result) = context w.
Proof.
  cbv zeta. rewrite close_listener_success.
  split; [|split].
  - intros e ->. split; reflexivity.
  - intros ->. split; [reflexivity|]. simpl. now rewrite <- app_assoc.
  - destruct (rename_error env); reflexivity.
Qed.

Lemma Array_sort_twice {A : Type} (cmp : A -> A -> Z) (P : A -> Prop)
    (l : list A) :
  (forall x y, P x -> P y -> 0 < cmp x y -> cmp y x <= 0) ->
  Forall P l ->
  Array_sort cmp (Array_sort cmp l) = Array_sort cmp l.
Proof.
  intros Hanti Pl. apply Array_sort_id.
  now apply Array_sort_Sorted with (P := P).
Qed.

(** X13.  Building the body a second time on the context the first time
    left gives the same text and leaves the context as it is, provided the
    collation is antisymmetric on the titles of the academic projects. *)
Theorem texBody_again `{Engine} (data : Data) :
  (forall a b,
     In a (map Project.title (projects_academic data)) ->
     In b (map Project.title (projects_academic data)) ->
     0 < localeCompare a b -> localeCompare b a <= 0) ->
  exists body w1 w2,
    texBody (start data) = (Normal body, w1) /\
    texBody w1 = (Normal body, w2) /\
    context w2 = context w1.
Proof.
  intros Hanti.
  assert (R : Array_sort default_compare
                (Array_sort default_compare (CV.refereeing (cv data)))
              = Array_sort default_compare (CV.refereeing (cv data))).
  { apply Array_sort_twice with (P := fun _ => True).
    - intros x y _ _. apply default_compare_antisym.
    - apply Forall_forall. trivial. }
  assert (A : Array_sort byTitle (Array_sort byTitle (projects_academic data))
              = Array_sort byTitle (projects_academic data)).
  { apply Array_sort_twice
      with (P := fun p => In (Project.title p)
                             (map Project.title (projects_academic data))).
    - intros x y Hx Hy. now apply Hanti.
    - apply Forall_forall. intros p Hp. now apply in_map. }
  eexists. eexists. eexists. split; [|split].
  - unfold texBody, sort_refereeing, sort_projects_academic, bind, ret, get,
      modify, start. cbn [context events]. reflexivity.
  - unfold texBody, sort_refereeing, sort_projects_academic, bind, ret, get,
      modify, start.
    cbn [context events cv site CV.refereeing CV.education CV.presentations
         CV.awards CV.researchexp CV.references collections_papers
         projects_academic projects_professional projects_personal
         set_refereeing set_projects_academic].
    rewrite R, A. reflexivity.
  - cbn [context]. unfold set_projects_academic, set_refereeing.
    cbn [cv site CV.refereeing CV.education CV.presentations
         CV.awards CV.researchexp CV.references collections_papers
         projects_academic projects_professional projects_personal].
    reflexivity.
Qed.

(* ------------------------------------------------------------------------- *)
(** * The address line *)
(* ------------------------------------------------------------------------- *)

Lemma skip_word_scheme (scheme rest : string) :
  all_word scheme = true ->
  skip_word (scheme ++ "://" ++ rest) = "://" ++ rest.
Proof.
  induction scheme as [|c scheme IH]; simpl; intros Hw; [reflexivity|].
  apply andb_true_iff in Hw. destruct Hw as [Hc Hw].
  rewrite Hc. now apply IH.
Qed.

Lemma length_append (a b : string) :
  String.length (a ++ b) = (String.length a + String.length b)%nat.
Proof. induction a as [|c a IH]; simpl; [reflexivity | now rewrite IH]. Qed.

(** X7.  A URL made of a scheme of word characters, "://" and a rest is
    shown as the rest; so is one that starts with two slashes. *)
Theorem strip_protocol_scheme (scheme rest : string) :
  scheme <> "" -> all_word scheme = true ->
  strip_protocol (scheme ++ "://" ++ rest) = rest /\
  strip_protocol ("//" ++ rest) = rest.
Proof.
  intros Hne Hw. split.
  - unfold strip_protocol. rewrite skip_word_scheme by exact Hw.
    assert (L : (String.length ("://" ++ rest)
                 =? String.length (scheme ++ "://" ++ rest))%nat = false).
    { apply Nat.eqb_neq. rewrite (length_append scheme).
      destruct scheme; [contradiction|]. simpl. lia. }
    rewrite L. cbn [negb andb].
    rewrite (prefix_append "://" rest).
    exact (drop_append "://" rest).
  - unfold strip_protocol.
    change (skip_word ("//" ++ rest)) with ("//" ++ rest).
    rewrite Nat.eqb_refl. cbn [negb andb].
    rewrite (prefix_append "//" rest).
    exact (drop_append "//" rest).
Qed.

Lemma skip_word_suffix (s : string) : exists p, s = p ++ skip_word s.
Proof.
  induction s as [|c s [p IH]]; simpl.
  - now exists "".
  - destruct (is_word c).
    + exists (String c p). simpl. now rewrite <- IH.
    + now exists "".
Qed.

Lemma append_assoc (a b c : string) : (a ++ b) ++ c = a ++ b ++ c.
Proof. induction a as [|x a IH]; simpl; [reflexivity | now rewrite IH]. Qed.

(** X8.  What is shown of a URL is the URL without some prefix, and a URL
    without two slashes in a row is shown whole. *)
Theorem strip_protocol_prefix (s : string) :
  (exists p, s = p ++ strip_protocol s) /\
  (~ occurs "//" s -> strip_protocol s = s).
Proof.
  unfold strip_protocol.
  destruct (skip_word_suffix s) as [p Hp].
  destruct (negb (String.length (skip_word s) =? String.length s)%nat
            && String.prefix "://" (skip_word s)) eqn:E1.
  - apply andb_true_iff in E1. destruct E1 as [_ E1].
    apply prefix_split in E1. cbn [String.length] in E1. split.
    + exists (p ++ "://"). rewrite append_assoc. now rewrite <- E1.
    + intros Ho. contradiction Ho.
      exists (p ++ ":"), (drop 3 (skip_word s)).
      rewrite append_assoc. change (":" ++ "//" ++ drop 3 (skip_word s))
        with ("://" ++ drop 3 (skip_word s)). now rewrite <- E1.
  - destruct (String.prefix "//" s) eqn:E2.
    + apply prefix_split in E2. cbn [String.length] in E2. split.
      * now exists "//".
      * intros Ho. contradiction Ho. now exists "", (drop 2 s).
    + split; [now exists "" | reflexivity].
Qed.

(* ------------------------------------------------------------------------- *)
(** * Small lists and edges *)
(* ------------------------------------------------------------------------- *)


(** X5.  The date annotation of an award: a date that is there but does
    not parse gives NaN, whatever start and end are; without a date, a
    start without an end (or an end without a start) gives no annotation;
    an empty date string counts as no date. *)
Theorem award_date_edges `{Engine} (award : Award.t) :
  (truthy (Award.date award) = true ->
   new_Date (Award.date award) = NaN ->
   awardDateString award = " \dateright{NaN}") /\
  (truthy (Award.date award) = false ->
   truthy (Award.start award) = false \/ truthy (Award.end_ award) = false ->
   awardDateString award = "") /\
  (Award.date award = Str "" ->
   truthy (Award.start award) = true -> truthy (Award.end_ award) = true ->
   awardDateString award
   = " \dateright{" ++ Number_toString (getYear (Award.start award)) ++
     "--" ++ Number_toString (getYear (Award.end_ award)) ++ "}").
Proof.
  unfold awardDateString, getYear. split; [|split].
  - intros -> ->. reflexivity.
  - intros -> [-> | ->]; [reflexivity|].
    now rewrite andb_false_r.
  - intros -> -> ->. reflexivity.
Qed.

(** X6.  The status line of a paper: none without a journal, whatever the
    flags; with a journal, the published line wins over the accepted line,
    and that one over the R&R line; no flag, no line. *)
Theorem journalString_priority (paper : Paper.t) :
  let d := Paper.data paper in
  let journal := ToString (PaperData.journal d) in
  (truthy (PaperData.journal d) = false -> journalString paper = "") /\
  (truthy (PaperData.journal d) = true ->
   (truthy (PaperData.published d) = true ->
    journalString paper
    = nl ++ nl ++ "\cvsubsubsection{" ++ journal ++ " " ++
      ToString (PaperData.year d) ++ "}") /\
   (truthy (PaperData.published d) = false ->
    truthy (PaperData.accepted d) = true ->
    journalString paper
    = nl ++ nl ++ "\cvsubsubsection{Accepted at " ++ journal ++ "}") /\
   (truthy (PaperData.published d) = false ->
    truthy (PaperData.accepted d) = false ->
    truthy (PaperData.rnr d) = true ->
    journalString paper
    = nl ++ nl ++ "\cvsubsubsection{R\&R at " ++ journal ++ "}") /\
   (truthy (PaperData.published d) = false ->
    truthy (PaperData.accepted d) = false ->
    truthy (PaperData.rnr d) = false ->
    journalString paper = "")).
Proof.
  cbv zeta. unfold journalString. cbv zeta. split.
  - intros ->. reflexivity.
  - intros ->. cbn [andb]. repeat split.
    + intros ->. reflexivity.
    + intros -> ->. reflexivity.
    + intros -> -> ->. reflexivity.
    + intros -> -> ->. reflexivity.
Qed.

(* ------------------------------------------------------------------------- *)
(** * The further theorems at sample data *)
(* ------------------------------------------------------------------------- *)

Lemma getYear_date_only_sample :
  getYear (H := new_york_host) (Str "2018-09-01") = Int 2018 /\
  getYear (H := new_york_host) (Str "2018-01-01") = Int 2017.
Proof.
  split.
  - exact (getYear_date_only (H := new_york_host) "2018-09-01" 2018 9 1
             eq_refl ltac:(lia) ltac:(lia) ltac:(vm_compute; split; discriminate)
             ltac:(vm_compute; split; [discriminate|reflexivity])).
  - exact (getYear_date_only (H := new_york_host) "2018-01-01" 2018 1 1
             eq_refl ltac:(lia) ltac:(lia) ltac:(vm_compute; split; discriminate)
             ltac:(vm_compute; split; [discriminate|reflexivity])).
Defined.

Lemma date_in_year_sample :
  date_in_year (H := new_york_host) "2018-09-01" 2018 /\
  date_in_year (H := new_york_host) "2022-06-01" 2022.
Proof.
  split; [exists 9, 1 | exists 6, 1];
    (split; [reflexivity|]);
    repeat split; try lia; try (vm_compute; discriminate);
    try (vm_compute; reflexivity).
Defined.

Lemma degree_year_range_sample :
  date_in_year (H := new_york_host) "2018-09-01" 2018 /\
  date_in_year (H := new_york_host) "2022-06-01" 2022 /\
  texDegree (H := new_york_host)
    {| Degree.title := "PhD"; Degree.start := Str "2018-09-01";
       Degree.end_ := Str "2022-06-01" |}
  = "\cvsubsubsection{PhD} \dateright{2018--2022}".
Proof.
  destruct date_in_year_sample as [D1 D2].
  split; [exact D1|]. split; [exact D2|].
  exact (degree_year_range (H := new_york_host) "PhD" _ _ _ _ D1 D2).
Defined.

Lemma texAwards_undated_sample :
  Forall (fun award => Date_parse (H := utc_host) (Award.date award) = NaN)
         Cases.positions /\
  texAwards (H := utc_host) Cases.positions
  = "Assistant \dateright{2016--2017}" ++ nl ++ nl ++
    "Fellow \dateright{2019--2020}".
Proof.
  assert (F : Forall (fun award =>
                        Date_parse (H := utc_host) (Award.date award) = NaN)
                     Cases.positions)
    by (repeat constructor).
  split; [exact F|].
  exact (texAwards_undated (H := utc_host) Cases.positions F).
Defined.

Lemma texAward_title_date_sample :
  "Prize" <> "" /\ "2020-06-15" <> "" /\
  texAward (H := new_york_host)
    {| Award.title := Str "Prize"; Award.for_ := Undefined;
       Award.from := Undefined; Award.date := Str "2020-06-15";
       Award.start := Undefined; Award.end_ := Undefined |}
  = "Prize \dateright{2020}".
Proof.
  assert (T : "Prize" <> "") by discriminate.
  assert (D : "2020-06-15" <> "") by discriminate.
  split; [exact T|]. split; [exact D|].
  exact (texAward_title_date (H := new_york_host) "Prize" "2020-06-15" T D).
Defined.

Lemma award_date_edges_sample :
  truthy (Award.date Cases.undated_prize) = true /\
  new_Date (H := utc_host) (Award.date Cases.undated_prize) = NaN /\
  awardDateString (H := utc_host) Cases.undated_prize = " \dateright{NaN}".
Proof.
  split; [reflexivity|]. split; [reflexivity|].
  exact (proj1 (award_date_edges (H := utc_host) Cases.undated_prize)
           eq_refl eq_refl).
Defined.

Lemma journalString_priority_sample :
  truthy (PaperData.journal (Paper.data Cases.published_paper)) = true /\
  truthy (PaperData.published (Paper.data Cases.published_paper)) = true /\
  journalString Cases.published_paper
  = nl ++ nl ++ "\cvsubsubsection{Journal of Economic Theory 2021}".
Proof.
  split; [reflexivity|]. split; [reflexivity|].
  exact (proj1 (proj2 (journalString_priority Cases.published_paper) eq_refl)
           eq_refl).
Defined.

Lemma strip_protocol_scheme_sample :
  "https" <> "" /\ all_word "https" = true /\
  strip_protocol "https://mattwthomas.com" = "mattwthomas.com".
Proof.
  assert (N : "https" <> "") by discriminate.
  split; [exact N|]. split; [reflexivity|].
  exact (proj1 (strip_protocol_scheme "https" "mattwthomas.com" N eq_refl)).
Defined.

Lemma strip_protocol_prefix_sample :
  ~ occurs "//" "x" /\ strip_protocol "x" = "x".
Proof.
  assert (N : ~ occurs "//" "x").
  { intros ([|c [|c' before]] & after & E); discriminate E. }
  split; [exact N|].
  exact (proj2 (strip_protocol_prefix "x") N).
Defined.

Lemma sortByDate_unique_sample :
  Forall (parses (H := utc_host) Presentation.date) Sample.dated_talks /\
  [ Sample.talk "Kyoto" (Str "2021-01-01");
    Sample.talk "Ithaca" (Str "2019-01-01");
    Sample.talk "Turin" (Str "2019-01-01") ]
  = sortByDate (H := utc_host) Sample.dated_talks Presentation.date.
Proof.
  assert (F : Forall (parses (H := utc_host) Presentation.date)
                     Sample.dated_talks)
    by (repeat constructor; vm_compute; discriminate).
  split; [exact F|].
  exact (sortByDate_unique (H := utc_host) Presentation.date
           Sample.dated_talks _ F
           (sortByDate_perm (H := utc_host) Presentation.date
              Sample.dated_talks)
           (sortByDate_sorted (H := utc_host) Presentation.date
              Sample.dated_talks F)
           (fun t => sortByDate_stable (H := utc_host) Presentation.date t
                       Sample.dated_talks)).
Defined.

Lemma texBody_again_sample :
  exists body w1 w2,
    texBody (H := utc_host) (start Sample.data) = (Normal body, w1) /\
    texBody (H := utc_host) w1 = (Normal body, w2) /\
    context w2 = context w1.
Proof.
  exact (texBody_again (H := utc_host) Sample.data
           (fun a b _ _ => letter_collation_antisym a b)).
Defined.


Lemma render_unreadable_sample :
  file Cases.no_preamble "/site/src/_latex/_preamble.tex" = Throw "ENOENT" /\
  fst (render (H := utc_host) Cases.no_preamble (start Sample.data))
  = Throw "ENOENT" /\
  events (snd (render (H := utc_host) Cases.no_preamble (start Sample.data)))
  = [ ReadFile "/site/src/_latex/_preamble.tex";
      ReadFile "/site/src/_latex/_postamble.tex";
      ExistsSync "./tmp";
      Spawn "/site/tmp/vtex/bin/x86_64-linux/lualatex" ["--jobname=cv"]
        "./tmp" ].
Proof.
  split; [reflexivity|].
  exact (render_unreadable (H := utc_host) Cases.no_preamble Sample.data
           "ENOENT" (or_introl eq_refl)).
Defined.

Lemma relocation_outcome_sample :
  rename_error Cases.no_preamble = Some "EXDEV" /\
  fst (close_listener Cases.no_preamble (Num (Int 0)) (start Sample.data))
  = Throw "EXDEV" /\
  rename_error Sample.env = None /\
  fst (close_listener Sample.env (Num (Int 0)) (start Sample.data))
  = Normal tt.
Proof.
  split; [reflexivity|]. split; [|split; [reflexivity|]].
  - exact (proj1 (proj1 (relocation_outcome Cases.no_preamble
                           (start Sample.data)) "EXDEV" eq_refl)).
  - exact (proj1 (proj1 (proj2 (relocation_outcome Sample.env
                                  (start Sample.data))) eq_refl)).
Defined.
